(** * originpro: the connection lifecycle, the type-code table, the typed
      accessors, the fit session and the Notes window

    A shallow embedding of the parts of [originpro] (config.py, base.py,
    analysis.py, notes.py) that carry local logic, with the external host
    (Origin, reached through PyOrigin or OriginExt) modelled by the values it
    hands back and by a log of the calls it receives. *)

From stdpp Require Import gmap strings list pretty.
From Stdlib Require Import ZArith Lia Ascii Floats.SpecFloat.

Set Warnings "-clear-no-such-hyp".

(** ** Python control flow: state and exceptions

    A Python statement sequence over a store [St] either returns a value or
    raises; the store keeps the effects made before the raise. *)

Inductive exn : Type :=
| TypeError
| ValueError (msg : string)
| OverflowError
| AttributeError
| ParseError
| HostError.

Inductive outcome (A : Type) : Type :=
| Returned (a : A)
| Raised (e : exn).
Arguments Returned {A} a.
Arguments Raised {A} e.

Definition py (St A : Type) : Type := St -> outcome A * St.

Definition ret {St A} (a : A) : py St A := fun s => (Returned a, s).

Definition raise {St A} (e : exn) : py St A := fun s => (Raised e, s).

Definition bind {St A B} (c : py St A) (k : A -> py St B) : py St B :=
  fun s => match c s with
           | (Returned a, s') => k a s'
           | (Raised e, s') => (Raised e, s')
           end.

#[global] Instance py_ret {St} : MRet (py St) := fun A a => ret a.
#[global] Instance py_bind {St} : MBind (py St) := fun A B k c => bind c k.

Definition get {St} : py St St := fun s => (Returned s, s).

Definition modify {St} (f : St -> St) : py St unit := fun s => (Returned tt, f s).

(** [try: c except ValueError: h] *)
Definition except_ValueError {St A} (c : py St A) (h : py St A) : py St A :=
  fun s => match c s with
           | (Raised (ValueError _), s') => h s'
           | r => r
           end.

(** [try: c except Exception as e: raise e'], every exception of the model
    is an [Exception]. *)
Definition except_Exception_raise {St A} (c : py St A) (e' : exn) : py St A :=
  fun s => match c s with
           | (Raised _, s') => (Raised e', s')
           | r => r
           end.

(** Run [c] on a component of the store. *)
Definition zoom {St T A} (proj : St -> T) (upd : T -> St -> St) (c : py T A) : py St A :=
  fun s => let '(r, t) := c (proj s) in (r, upd t s).

Definition when {St} (b : bool) (c : py St unit) : py St unit :=
  if b then c else ret tt.

(** ** config.py: the [APP] wrapper around [OriginExt.Application] *)

Module Config.

Inductive app_kind : Type := Application | ApplicationSI.

(** What reaches OriginExt and the application object behind [APP]. *)
Inductive host_event : Type :=
| Ev_new (k : app_kind)
| Ev_LT_execute (cmd : string)
| Ev_Exit (releaseonly : bool).

Record APP : Type := mkAPP { _app : option app_kind; _first : bool }.

(** The store of the wrapper: the instance and the calls it has made. *)
Record app_state : Type := mkAppState { self : APP; events : list host_event }.

Definition emit (e : host_event) : py app_state unit :=
  modify (fun s => mkAppState (self s) (events s ++ [e])).

Definition set_app (a : option app_kind) : py app_state unit :=
  modify (fun s => mkAppState (mkAPP a (_first (self s))) (events s)).

Definition set_first (b : bool) : py app_state unit :=
  modify (fun s => mkAppState (mkAPP (_app (self s)) b) (events s)).

(** [APP.__init__] *)
Definition __init__ : APP := mkAPP None true.

Definition fresh_state : app_state := mkAppState __init__ [].

(** Where [__getattr__] found the name. *)
Inductive attribute : Type :=
| ModuleAttr (name : string)
| AppAttr (a : app_kind) (name : string).

Section Host.
(** The names the [OriginExt] module itself defines, and whether the
    host answers when an application object is requested. *)
Variable OriginExt_has : string -> bool.
Variable host_reachable : bool.

(** [OriginExt.Application()] and [OriginExt.ApplicationSI()] *)
Definition new_app (k : app_kind) : py app_state app_kind :=
  if host_reachable then emit (Ev_new k) ;; ret k else raise HostError.

(** [APP.__getattr__] *)
Definition __getattr__ (name : string) : py app_state attribute :=
  if OriginExt_has name then ret (ModuleAttr name)
  else
    s ← get;
    match _app (self s) with
    | None =>
        a ← new_app Application;
        set_app (Some a) ;;
        emit (Ev_LT_execute "sec -poc") ;;
        ret (AppAttr a name)
    | Some a => ret (AppAttr a name)
    end.

(** [APP.__bool__] *)
Definition __bool__ (s : app_state) : bool :=
  match _app (self s) with Some _ => true | None => false end.

(** [APP.Exit] *)
Definition Exit (releaseonly : bool) : py app_state unit :=
  s ← get;
  match _app (self s) with
  | Some _ => emit (Ev_Exit releaseonly) ;; set_app None
  | None => ret tt
  end.

(** [APP.Attach] *)
Definition Attach : py app_state unit :=
  s ← get;
  (if _first (self s) then set_first false ;; Exit false else Exit true) ;;
  a ← new_app ApplicationSI;
  set_app (Some a).

(** [APP.Detach] *)
Definition Detach : py app_state unit := Exit true.

(** The attribute reads config.py makes on [po] while it is imported with
    OriginExt: the [oext or ...] test short-circuits, so only the ten
    type-code constants of the table are read. *)
Definition import_reads : list string :=
  ["DF_DOUBLE"; "DF_FLOAT"; "DF_SHORT"; "DF_LONG"; "DF_CHAR"; "DF_BYTE";
   "DF_USHORT"; "DF_ULONG"; "DF_COMPLEX"; "DF_LONG"].

Fixpoint read_all (names : list string) : py app_state unit :=
  match names with
  | [] => ret tt
  | n :: rest => __getattr__ n ;; read_all rest
  end.

(** Module load, [po = APP()] followed by the reads of the table. *)
Definition module_load : outcome unit * app_state :=
  read_all import_reads fresh_state.

End Host.

(** An OriginExt module that defines the names starting with [DF_]. *)
Definition defines_DF (name : string) : bool := String.prefix "DF_" name.

End Config.

(** ** base.py: [BaseObject] and the process-wide counters of config.py *)

Module BaseObject.

(** An external reference; [None] is Python's [None]. *)
Definition handle : Type := nat.

(** The counters as they stand when [po.Detach()] is entered. *)
Record detach_point : Type := mkDetachPoint {
  at_EXIT : bool;
  at_OBJS_COUNT : Z;
  at_objs : gset nat
}.

(** The interpreter's store: the globals of config.py, the wrapper instances
    that exist and whose finaliser has not started ([objs]), the [obj]
    attribute of those that have one, and one entry per call of
    [po.Detach()]. *)
Record process : Type := mkProcess {
  oext : bool;
  _EXIT : bool;
  _OBJS_COUNT : Z;
  po : Config.app_state;
  objs : gset nat;
  obj : gmap nat handle;
  detach_log : list detach_point
}.

Definition set_EXIT (b : bool) (s : process) : process :=
  mkProcess (oext s) b (_OBJS_COUNT s) (po s) (objs s) (obj s) (detach_log s).

Definition set_OBJS_COUNT (n : Z) (s : process) : process :=
  mkProcess (oext s) (_EXIT s) n (po s) (objs s) (obj s) (detach_log s).

Definition set_po (a : Config.app_state) (s : process) : process :=
  mkProcess (oext s) (_EXIT s) (_OBJS_COUNT s) a (objs s) (obj s) (detach_log s).

Definition set_objs (o : gset nat) (s : process) : process :=
  mkProcess (oext s) (_EXIT s) (_OBJS_COUNT s) (po s) o (obj s) (detach_log s).

Definition set_obj (m : gmap nat handle) (s : process) : process :=
  mkProcess (oext s) (_EXIT s) (_OBJS_COUNT s) (po s) (objs s) m (detach_log s).

Definition note_detach (s : process) : process :=
  mkProcess (oext s) (_EXIT s) (_OBJS_COUNT s) (po s) (objs s) (obj s)
    (detach_log s ++ [mkDetachPoint (_EXIT s) (_OBJS_COUNT s) (objs s)]).

(** [po.Detach()] as the two callers reach it. *)
Definition po_Detach : py process unit :=
  modify note_detach ;; zoom po set_po Config.Detach.

(** [BaseObject.__init__(self, obj)] *)
Definition __init__ (self : nat) (o : option handle) : py process unit :=
  s ← get;
  when (oext s) (modify (set_OBJS_COUNT (_OBJS_COUNT s + 1))) ;;
  match o with
  | None => raise TypeError
  | Some h => modify (fun s => set_obj (<[self := h]> (obj s)) s)
  end.

(** [BaseObject.__del__(self)]; [not _OBJS_COUNT[0]] holds when the count
    is zero. *)
Definition __del__ (self : nat) : py process unit :=
  s ← get;
  when (oext s)
    (modify (set_OBJS_COUNT (_OBJS_COUNT s - 1)) ;;
     s' ← get;
     when (_EXIT s' && (_OBJS_COUNT s' =? 0)%Z) po_Detach).

(** [_exit_handler] of config.py *)
Definition _exit_handler : py process unit :=
  modify (set_EXIT true) ;;
  s ← get;
  when (_OBJS_COUNT s =? 0)%Z po_Detach.

(** What the interpreter does with wrappers: [cls(obj)] allocates an
    instance and runs [__init__] on it (an instance whose [__init__] raised
    stays allocated until it is finalised); finalisation takes the instance
    out of the reachable ones, runs [__del__] and frees its attributes; at
    shutdown the registered handler runs, and it is registered only with
    OriginExt. *)
Inductive op : Type :=
| Construct (o : option handle)
| Destroy (id : nat)
| AtExit.

Definition construct (o : option handle) : py process nat :=
  s ← get;
  let self := fresh (objs s) in
  modify (set_objs ({[self]} ∪ objs s)) ;;
  __init__ self o ;;
  mret self.

Definition destroy (id : nat) : py process unit :=
  s ← get;
  if decide (id ∈ objs s) then
    modify (set_objs (objs s ∖ {[id]})) ;;
    __del__ id ;;
    modify (fun s => set_obj (delete id (obj s)) s)
  else mret tt.

Definition step (s : process) (o : op) : process :=
  match o with
  | Construct r => snd (construct r s)
  | Destroy id => snd (destroy id s)
  | AtExit => if oext s then snd (_exit_handler s) else s
  end.

Definition run (ops : list op) (s : process) : process := fold_left step ops s.

(** The store after config.py and base.py are imported. *)
Definition init (mode : bool) : process :=
  mkProcess mode false 0 Config.fresh_state ∅ ∅ [].

(** The wrappers whose construction completed. *)
Definition live (s : process) : gset nat := dom (obj s).

(** The count is the number of instances whose finaliser has not run when
    OriginExt is in use, and stays at zero otherwise; a completed wrapper is
    one of these instances. *)
Definition counted (s : process) : Prop :=
  (if oext s then _OBJS_COUNT s = Z.of_nat (size (objs s)) else _OBJS_COUNT s = 0%Z)
  ∧ live s ⊆ objs s.

(** The store [__del__] leaves. *)
Definition after_del (s : process) : process :=
  if oext s then
    let s1 := set_OBJS_COUNT (_OBJS_COUNT s - 1) s in
    if _EXIT s1 && (_OBJS_COUNT s1 =? 0)%Z
    then set_po (snd (Config.Detach (po s1))) (note_detach s1)
    else s1
  else s.

(** The counters at a call of [po.Detach()]: shutdown has begun, the count
    is zero and no wrapper instance is left. *)
Definition released (d : detach_point) : Prop :=
  at_EXIT d = true ∧ at_OBJS_COUNT d = 0%Z ∧ at_objs d = ∅.

(** Once shutdown has begun with OriginExt, a zero count has been answered
    by a detach. *)
Definition answered (s : process) : Prop :=
  _EXIT s = true → _OBJS_COUNT s = 0%Z → detach_log s ≠ [].

End BaseObject.

(** ** config.py: the numpy dtype / storage code tables *)

Module TypeCodes.

(** A Python [dict]: keys in insertion order; storing under a key that is
    present replaces the value where it stands. *)
Section Dict.
Context {K V : Type} `{EqDecision K}.

Fixpoint dict_set (k : K) (v : V) (d : list (K * V)) : list (K * V) :=
  match d with
  | [] => [(k, v)]
  | (k', v') :: rest =>
      if decide (k = k') then (k', v) :: rest else (k', v') :: dict_set k v rest
  end.

Fixpoint dict_get (k : K) (d : list (K * V)) : option V :=
  match d with
  | [] => None
  | (k', v') :: rest => if decide (k = k') then Some v' else dict_get k rest
  end.

(** A dict display or comprehension stores its items from left to right. *)
Definition dict_of_items (items : list (K * V)) : list (K * V) :=
  fold_left (fun d kv => dict_set (fst kv) (snd kv) d) items [].

End Dict.

Inductive npdtype : Type :=
| float64 | float32 | int16 | int32 | int8 | uint8 | uint16 | uint32
| complex128 | int64.

#[global] Instance npdtype_eq_dec : EqDecision npdtype.
Proof. solve_decision. Defined.

(** The storage codes [po.DF_*], constants of the host library. *)
Record DF : Type := mkDF {
  DF_DOUBLE : Z; DF_FLOAT : Z; DF_SHORT : Z; DF_LONG : Z; DF_CHAR : Z;
  DF_BYTE : Z; DF_USHORT : Z; DF_ULONG : Z; DF_COMPLEX : Z
}.

Definition codes (c : DF) : list Z :=
  [DF_DOUBLE c; DF_FLOAT c; DF_SHORT c; DF_LONG c; DF_CHAR c; DF_BYTE c;
   DF_USHORT c; DF_ULONG c; DF_COMPLEX c].

Definition npdtype_to_orgdtype (c : DF) : list (npdtype * Z) :=
  dict_set int64 (DF_LONG c)
    (dict_of_items
       [(float64, DF_DOUBLE c); (float32, DF_FLOAT c); (int16, DF_SHORT c);
        (int32, DF_LONG c); (int8, DF_CHAR c); (uint8, DF_BYTE c);
        (uint16, DF_USHORT c); (uint32, DF_ULONG c); (complex128, DF_COMPLEX c)]).

Definition orgdtype_to_npdtype (c : DF) : list (Z * npdtype) :=
  dict_of_items (map (fun kv => (snd kv, fst kv)) (npdtype_to_orgdtype c)).

Definition encode (c : DF) (k : npdtype) : option Z :=
  dict_get k (npdtype_to_orgdtype c).

Definition decode (c : DF) (v : Z) : option npdtype :=
  dict_get v (orgdtype_to_npdtype c).

(** Encode, then decode the code obtained. *)
Definition roundtrip (c : DF) (k : npdtype) : option npdtype :=
  encode c k ≫= decode c.

(** Codes that differ from one another, in the order of the table. *)
Definition distinct_codes : DF := mkDF 0 1 2 3 4 5 6 7 8.

End TypeCodes.

(** ** Python values handed back by the host, and the builtin [int] *)

Module Builtins.

Inductive pyval : Type :=
| PyFloat (f : spec_float)
| PyInt (z : Z)
| PyStr (s : string)
| PyNone.

(** [int(x)] on a float: NaN raises [ValueError], an infinity raises
    [OverflowError], a finite float is truncated towards zero. *)
Definition int_of_float (f : spec_float) : outcome Z :=
  match f with
  | S754_zero _ => Returned 0%Z
  | S754_nan => Raised (ValueError "cannot convert float NaN to integer")
  | S754_infinity _ => Raised OverflowError
  | S754_finite s m e =>
      let mag := Z.shiftl (Z.pos m) e in
      Returned (if s then (- mag)%Z else mag)
  end.

Section Int.
(** The reading of a numeral, [None] where [int] rejects the text. *)
Variable parse_int : string -> option Z.

Definition int (v : pyval) : outcome Z :=
  match v with
  | PyFloat f => int_of_float f
  | PyInt z => Returned z
  | PyStr s =>
      match parse_int s with
      | Some z => Returned z
      | None => Raised (ValueError ("invalid literal for int() with base 10: " +:+ s))
      end
  | PyNone => Raised TypeError
  end.

End Int.

(** Lift a pure outcome into a statement sequence. *)
Definition lift {St A} (r : outcome A) : py St A := fun s => (r, s).

End Builtins.

(** ** base.py: the typed accessors of [BaseObject] *)

Module Accessors.
Import Builtins.

Section Host.
(** The host object behind [self.obj]: its state, and its answers to
    [GetNumProp(prop)] and [DoMethod(name, arg)]. *)
Variable host : Type.
Variable GetNumProp : string -> py host pyval.
Variable DoMethod : string -> string -> py host pyval.
Variable parse_int : string -> option Z.

Definition get_float (prop : string) : py host pyval := GetNumProp prop.

Definition get_int (prop : string) : py host Z :=
  except_ValueError (v ← get_float prop; lift (int parse_int v)) (mret 0%Z).

Definition method_float (name arg : string) : py host pyval := DoMethod name arg.

Definition method_int (name arg : string) : py host Z :=
  except_ValueError (v ← method_float name arg; lift (int parse_int v)) (mret 0%Z).

End Host.

(** A host that answers every request with the same value. *)
Definition constant_host (v : pyval) : string -> py unit pyval := fun _ => mret v.

(** -2.5 as a float: sign, mantissa 5, exponent -1. *)
Definition minus_two_and_a_half : spec_float := S754_finite true 5 (-1).

End Accessors.

(** ** analysis.py: the non-linear fit session [NLFit] *)

Module NLFit.
Import Builtins.

(** An [xml.etree.ElementTree.Element]. *)
#[warnings="-register-all"]
Inductive element : Type :=
| Element (tag : string) (text : option string) (children : list element).

Definition tag_of (e : element) : string := let 'Element t _ _ := e in t.
Definition text_of (e : element) : option string := let 'Element _ x _ := e in x.
Definition children_of (e : element) : list element := let 'Element _ _ c := e in c.

(** [e.find(tag)] for a plain tag name: the first child with that tag. *)
Definition find (tag : string) (e : element) : option element :=
  List.find (fun c => bool_decide (tag_of c = tag)) (children_of e).

(** The truth value of an element in an [if]: it has children. *)
Definition truth (e : element) : bool :=
  match children_of e with [] => false | _ :: _ => true end.

(** The double quote character. *)
Definition dquote : string := String (ascii_of_nat 34) EmptyString.

(** [str.upper] on ASCII text. *)
Definition upper_ascii (a : ascii) : ascii :=
  let n := nat_of_ascii a in
  if (97 <=? n)%nat && (n <=? 122)%nat then ascii_of_nat (n - 32) else a.

Fixpoint upper (s : string) : string :=
  match s with
  | EmptyString => EmptyString
  | String a rest => String (upper_ascii a) (upper rest)
  end.

(** The calls that reach the host, in the order they are made.
    [lt_tree_to_dict] is the helper of utils.py, kept as one call. *)
Inductive lt_call : Type :=
| LT_execute (cmd : string)
| LT_evaluate (expr : string)
| LT_set_var (name : string) (value : pyval)
| LT_get_str (name : string)
| lt_tree_to_dict (name : string).

(** The attributes of an [NLFit] instance; [ident] is [id(self)]. *)
Record NLFit : Type := mkNLFit {
  ident : Z;
  _tree_name : string;
  _ended : bool;
  func : string;
  _trfdf : element;
  _implicit : bool;
  _odr : bool;
  _numDeps : Z;
  _numIndeps : Z
}.

Record session : Type := mkSession { me : NLFit; calls : list lt_call }.

Definition set_me (f : NLFit) (s : session) : session := mkSession f (calls s).
Definition set_calls (l : list lt_call) (s : session) : session := mkSession (me s) l.

Definition set_tree_name (n : string) (f : NLFit) : NLFit :=
  mkNLFit (ident f) n (_ended f) (func f) (_trfdf f) (_implicit f) (_odr f)
    (_numDeps f) (_numIndeps f).

Definition set_ended (b : bool) (f : NLFit) : NLFit :=
  mkNLFit (ident f) (_tree_name f) b (func f) (_trfdf f) (_implicit f) (_odr f)
    (_numDeps f) (_numIndeps f).

(** The request [__init__] sends for the description of [fn]. *)
Definition fdf_request (fn : string) : string :=
  "GetFDFAsXML(" +:+ dquote +:+ fn +:+ dquote +:+ ")$".

Section Host.
(** What the host and the XML parser answer: the string of [LT_get_str]
    (the call may fail), the value of [LT_evaluate], the mapping
    [lt_tree_to_dict] builds, each as a function of the calls made so far;
    [ET.fromstring], [None] where it raises; and the numerals [int] reads. *)
Variable get_str_reply : list lt_call -> string -> outcome string.
Variable evaluate_reply : list lt_call -> string -> pyval.
Variable tree_dict : Type.
Variable tree_reply : list lt_call -> string -> tree_dict.
Variable fromstring : string -> option element.
Variable parse_int : string -> option Z.

Definition record (c : lt_call) : py (list lt_call) unit := modify (fun l => l ++ [c]).

Definition po_LT_execute (cmd : string) : py (list lt_call) unit :=
  record (LT_execute cmd).

Definition po_LT_set_var (name : string) (v : pyval) : py (list lt_call) unit :=
  record (LT_set_var name v).

Definition po_LT_evaluate (expr : string) : py (list lt_call) pyval :=
  l ← get; record (LT_evaluate expr) ;; mret (evaluate_reply l expr).

Definition po_LT_get_str (name : string) : py (list lt_call) string :=
  l ← get; record (LT_get_str name) ;; lift (get_str_reply l name).

Definition utils_lt_tree_to_dict (name : string) : py (list lt_call) tree_dict :=
  l ← get; record (lt_tree_to_dict name) ;; mret (tree_reply l name).

Definition host {A} (c : py (list lt_call) A) : py session A := zoom calls set_calls c.

(** [ET.fromstring(text)] *)
Definition ET_fromstring {St} (text : string) : py St element :=
  match fromstring text with
  | Some e => mret e
  | None => raise ParseError
  end.

(** [NLFit._func_section] on the parsed description [trfdf] *)
Definition _func_section (trfdf : element) (section : string) : option element :=
  match find section trfdf with
  | Some sec => if truth sec then Some sec else find (upper section) trfdf
  | None => find (upper section) trfdf
  end.

(** [NLFit._general_info]: [.find] on [None] raises [AttributeError]. *)
Definition _general_info {St} (trfdf : element) (key : string) : py St (option element) :=
  match _func_section trfdf "GeneralInformation" with
  | Some sec => mret (find key sec)
  | None => raise AttributeError
  end.

(** [int(e.text)] for the result [e] of a [find] *)
Definition int_text {St} (e : option element) : py St Z :=
  match e with
  | None => raise AttributeError
  | Some el =>
      match text_of el with
      | Some t => lift (int parse_int (PyStr t))
      | None => lift (int parse_int PyNone)
      end
  end.

(** [NLFit.__init__(self, func, method)], returning the instance built. *)
Definition __init__ (id_self : Z) (fn : string) (method : string)
  : py (list lt_call) NLFit :=
  trfdf ← except_Exception_raise
            (text ← po_LT_get_str (fdf_request fn);
             ET_fromstring text)
            (ValueError ("Invalid fitting function: " +:+ fn));
  function_model ← _general_info trfdf "FunctionModel";
  let implicit :=
    match function_model with
    | Some fm => bool_decide (text_of fm = Some "Implicit")
    | None => false
    end in
  nd ← (e ← _general_info trfdf "NumberOfDependentVariables"; int_text e);
  ni ← (e ← _general_info trfdf "NumberOfIndependentVariables"; int_text e);
  let built odr := mkNLFit id_self EmptyString false fn trfdf implicit odr nd ni in
  if bool_decide (method = "auto") then mret (built implicit)
  else if bool_decide (method = "odr") then mret (built true)
  else if bool_decide (method = "lm") then
    if implicit then
      raise (ValueError ("Implicit function(" +:+ fn +:+ ") supports odr fitting method only."))
    else mret (built false)
  else raise (ValueError ("Invalid fitting method: " +:+ method)).

(** [NLFit._get_tree_name] *)
Definition _get_tree_name : py session string :=
  s ← get;
  (if bool_decide (_tree_name (me s) = EmptyString) then
     modify (set_me (set_tree_name ("_PY_NLFIT_TREE_" +:+ pretty (ident (me s))) (me s)))
   else mret tt) ;;
  s' ← get;
  mret (_tree_name (me s')).

(** The [z] argument of [set_mdata]: an [int] or a [str]. *)
Inductive index_or_name : Type :=
| Index (z : Z)
| Name (n : string).

Definition format_z (z : index_or_name) : string :=
  match z with Index i => pretty i | Name n => n end.

(** Unary plus on an [int]. *)
Definition unary_plus (z : Z) : Z := z.

(** [NLFit.set_mdata(self, ms, z)], [ms_range] being what
    [ms.lt_range(False)] returns; [z =+ 1] is the assignment [z = +1]. *)
Definition set_mdata (ms_range : string) (z : index_or_name) : py session unit :=
  let z := match z with Index _ => Index (unary_plus 1) | Name n => Name n end in
  let rng := ms_range +:+ "!" +:+ format_z z in
  tr ← _get_tree_name;
  s ← get;
  let strLT := "nlbeginm " +:+ rng +:+ " " +:+ func (me s) +:+ " " +:+ tr in
  host (po_LT_execute strLT) ;;
  modify (fun s => set_me (set_ended false (me s)) s).

(** [NLFit.fit(self, iter)] with [iter] already formatted *)
Definition fit (iter : string) : py session unit :=
  host (po_LT_execute ("nlfit " +:+ iter)).

(** [NLFit.result(self)] *)
Definition result : py session tree_dict :=
  s ← get;
  (if negb (_ended (me s)) then
     host (po_LT_execute "nlend") ;;
     modify (fun s => set_me (set_ended true (me s)) s)
   else mret tt) ;;
  tr ← _get_tree_name;
  host (utils_lt_tree_to_dict tr).

(** [NLFit.report(self, autoupdate)] *)
Definition report (autoupdate : bool) : py session (string * string) :=
  s ← get;
  if _ended (me s) then
    raise (ValueError "You must call report() before calling result().")
  else
    oldVal ← host (po_LT_evaluate "@NLFS");
    host (po_LT_set_var "@NLFS" (PyInt 0)) ;;
    host (po_LT_execute (if autoupdate then "nlend 1 1" else "nlend 1")) ;;
    modify (fun s => set_me (set_ended true (me s)) s) ;;
    host (po_LT_set_var "@NLFS" oldVal) ;;
    r ← host (po_LT_get_str "__REPORT");
    c ← host (po_LT_get_str "__FITCURVE");
    mret (r, c).

(** The host reports the function as unknown: the request fails, or its
    answer is not XML. *)
Definition unknown_function (l : list lt_call) (fn : string) : Prop :=
  ∀ text, get_str_reply l (fdf_request fn) = Returned text → fromstring text = None.

(** The host answers with the description [trfdf]. *)
Definition described_by (l : list lt_call) (fn : string) (trfdf : element) : Prop :=
  ∃ text, get_str_reply l (fdf_request fn) = Returned text ∧ fromstring text = Some trfdf.

(** The numeral stored under [key] in the general information. *)
Definition count_of (trfdf : element) (key : string) : option Z :=
  sec ← _func_section trfdf "GeneralInformation";
  e ← find key sec;
  t ← text_of e;
  parse_int t.

(** A description that carries both variable counts. *)
Definition complete (trfdf : element) : Prop :=
  is_Some (count_of trfdf "NumberOfDependentVariables")
  ∧ is_Some (count_of trfdf "NumberOfIndependentVariables").

(** The description declares an implicit function. *)
Definition implicit_model (trfdf : element) : bool :=
  match _func_section trfdf "GeneralInformation" with
  | Some sec =>
      match find "FunctionModel" sec with
      | Some fm => bool_decide (text_of fm = Some "Implicit")
      | None => false
      end
  | None => false
  end.

End Host.

(** The name [_get_tree_name] returns for an instance. *)
Definition tree_name_of (f : NLFit) : string :=
  if bool_decide (_tree_name f = EmptyString)
  then "_PY_NLFIT_TREE_" +:+ pretty (ident f)
  else _tree_name f.

(** A call that ends the fit: an [nlend] command. *)
Definition is_nlend (c : lt_call) : bool :=
  match c with
  | LT_execute cmd => String.prefix "nlend" cmd
  | _ => false
  end.

(** The tags for which [find] and [upper] are [Element.find] and
    [str.upper]: non-empty, made of ASCII letters, digits and underscores,
    so that the tag is no path expression and has no other upper case. *)
Definition plain_char (a : ascii) : bool :=
  let n := nat_of_ascii a in
  ((48 <=? n)%nat && (n <=? 57)%nat) || ((65 <=? n)%nat && (n <=? 90)%nat)
  || ((97 <=? n)%nat && (n <=? 122)%nat) || (n =? 95)%nat.

Fixpoint all_plain (s : string) : bool :=
  match s with
  | EmptyString => true
  | String a rest => plain_char a && all_plain rest
  end.

Definition plain_tag (s : string) : bool :=
  match s with
  | EmptyString => false
  | _ => all_plain s
  end.

End NLFit.

(** ** notes.py: the Notes window *)

Module Notes.

Section Platform.
(** [os.linesep] *)
Variable linesep : string.

(** The text of the window behind [self.obj]. *)
Definition window : Type := string.

(** The [text] property: [self.obj.GetText()] and [self.obj.SetText(value)] *)
Definition text : py window string := get.
Definition set_text (value : string) : py window unit := modify (fun _ => value).

(** [Notes.append(self, text, newline)] *)
Definition append (t : string) (newline : bool) : py window unit :=
  t0 ← text;
  let t := t0 +:+ t in
  let t := if newline then t +:+ linesep else t in
  set_text t.

End Platform.

End Notes.

(** ** A sample host, to run the fit session on *)

Module Sample.
Import Builtins NLFit.

(** Decimal numerals. *)
Fixpoint decimal_from (acc : Z) (s : string) : option Z :=
  match s with
  | EmptyString => Some acc
  | String a rest =>
      match Ascii.is_nat a with
      | Some d => decimal_from (10 * acc + Z.of_nat d) rest
      | None => None
      end
  end.

Definition decimal (s : string) : option Z :=
  match s with
  | EmptyString => None
  | _ => decimal_from 0 s
  end.

Definition general_information (model : string) : element :=
  Element "GeneralInformation" None
    [Element "FunctionModel" (Some model) [];
     Element "NumberOfDependentVariables" (Some "1") [];
     Element "NumberOfIndependentVariables" (Some "1") []].

Definition explicit_fdf : element := Element "FDF" None [general_information "Explicit"].
Definition implicit_fdf : element := Element "FDF" None [general_information "Implicit"].

(** A host that knows an explicit function [Gauss] and an implicit function
    [Circle], and a parser for the two texts it sends. *)
Definition sample_get_str (_ : list lt_call) (name : string) : outcome string :=
  if bool_decide (name = fdf_request "Gauss") then Returned "<Gauss/>"
  else if bool_decide (name = fdf_request "Circle") then Returned "<Circle/>"
  else Returned EmptyString.

Definition sample_fromstring (text : string) : option element :=
  if bool_decide (text = "<Gauss/>") then Some explicit_fdf
  else if bool_decide (text = "<Circle/>") then Some implicit_fdf
  else None.

Definition sample_evaluate (_ : list lt_call) (_ : string) : pyval := PyInt 1.

Definition sample_tree (_ : list lt_call) (name : string) : string := name.

(** A host whose description of [Circle] says that the function is
    implicit and carries no variable counts. *)
Definition bare_fdf : element :=
  Element "FDF" None
    [Element "GeneralInformation" None [Element "FunctionModel" (Some "Implicit") []]].

Definition bare_get_str (_ : list lt_call) (_ : string) : outcome string :=
  Returned "<Circle/>".

Definition bare_fromstring (text : string) : option element :=
  if bool_decide (text = "<Circle/>") then Some bare_fdf else None.

(** A session on [Gauss] as [__init__] builds it. *)
Definition sample_session : session :=
  mkSession (mkNLFit 1 EmptyString false "Gauss" explicit_fdf false false 1 1)
    [LT_get_str (fdf_request "Gauss")].

(** The session after [fit] and a first [result]. *)
Definition finalized_session : session :=
  snd (result string sample_tree (snd (fit EmptyString sample_session))).

End Sample.

(** ** base.py: kinds of lifecycle operations *)

Module Shutdown.
Import BaseObject.

Definition is_AtExit (o : op) : bool :=
  match o with AtExit => true | _ => false end.

Definition is_Destroy (o : op) : bool :=
  match o with Destroy _ => true | _ => false end.

(** Before shutdown nothing has been detached. *)
Definition running (s : process) : Prop :=
  oext s = true ∧ _EXIT s = false ∧ detach_log s = [] ∧ counted s.

(** During shutdown one detach at most has been made, and only once no
    instance was left. *)
Definition closing (s : process) : Prop :=
  oext s = true ∧ _EXIT s = true ∧ counted s
  ∧ ((detach_log s = [] ∧ objs s ≠ ∅) ∨ (length (detach_log s) = 1 ∧ objs s = ∅)).

End Shutdown.

(** ** config.py: sequences of operations on the [APP] wrapper *)

Module AppRuns.
Import Config.

(** What a caller can do with [po]: read an attribute, or call one of the
    three methods of the class. *)
Inductive app_op : Type :=
| Getattr (name : string)
| CallExit (releaseonly : bool)
| CallAttach
| CallDetach.

Section Host.
Variable OriginExt_has : string -> bool.
Variable host_reachable : bool.

Definition app_step (s : app_state) (o : app_op) : app_state :=
  match o with
  | Getattr name => snd (__getattr__ OriginExt_has host_reachable name s)
  | CallExit r => snd (Exit r s)
  | CallAttach => snd (Attach host_reachable s)
  | CallDetach => snd (Detach s)
  end.

Definition app_run (ops : list app_op) (s : app_state) : app_state :=
  fold_left app_step ops s.

End Host.

Definition is_new (e : host_event) : bool :=
  match e with Ev_new _ => true | _ => false end.

Definition is_exit (e : host_event) : bool :=
  match e with Ev_Exit _ => true | _ => false end.

(** The exit that closes the host instead of releasing it. *)
Definition is_closing_exit (e : host_event) : bool :=
  match e with Ev_Exit false => true | _ => false end.

Definition held (s : app_state) : nat :=
  match _app (self s) with Some _ => 1 | None => 0 end.

(** Every application object created has been exited, but the one held. *)
Definition balanced (s : app_state) : Prop :=
  length (filter is_new (events s)) = length (filter is_exit (events s)) + held s.

(** A closing exit has been made only once [_first] is cleared, and at most
    once. *)
Definition closes_once (s : app_state) : Prop :=
  length (filter is_closing_exit (events s)) ≤ (if _first (self s) then 0 else 1).

Definition calls_Exit (o : app_op) : bool :=
  match o with CallExit _ => true | _ => false end.

Definition is_CallAttach (o : app_op) : bool :=
  match o with CallAttach => true | _ => false end.

(** The number of closing exits made so far. *)
Definition closings (s : app_state) : nat :=
  length (filter is_closing_exit (events s)).

End AppRuns.

(** ** analysis.py: finalisation of a fit object with OriginExt *)

Module Finalizer.
Import Config.

Section Host.
Variable OriginExt_has : string -> bool.
Variable host_reachable : bool.

(** [po.LT_execute(cmd)] through the wrapper: the attribute is read, then
    called. *)
Definition po_LT_execute (cmd : string) : py app_state unit :=
  __getattr__ OriginExt_has host_reachable "LT_execute" ;;
  emit (Ev_LT_execute cmd).

(** [NLFit.__del__] and [LinearFit.__del__], [tr] being the tree name:
    [if po:] asks [APP.__bool__]. *)
Definition __del__ (tr : string) : py app_state unit :=
  s ← get;
  if __bool__ s then po_LT_execute ("del -vt " +:+ tr) else mret tt.

End Host.

End Finalizer.

(** ** base.py: file types and sheet shapes *)

Module Sheets.

(** [_DC_from_ext] *)
Definition _DC_from_ext {St} (ext : string) : py St string :=
  if bool_decide (ext ∈ [".csv"; ".asc"; ".txt"; ".dat"]) then mret "csv"
  else if bool_decide (ext ∈ [".xls"; ".xlsx"]) then mret "excel"
  else raise (ValueError "file type not supported, must be text or Excel files").

(** The calls [from_file] makes on the data connector of dc.py. *)
Inductive dc_call : Type :=
| Connector (DC : string) (keep_DC : bool)
| imp (fname sel : string) (sparks : bool).

Section FromFile.
(** [get_file_ext] of utils.py, and what [Connector.imp] returns. *)
Variable get_file_ext : string -> string.
Variable imp_result : Type.
Variable imp_reply : list dc_call -> imp_result.

(** [DSheet.from_file] *)
Definition from_file (fname : string) (keep_DC : bool) (dctype sel : string)
    (sparks : bool) : py (list dc_call) imp_result :=
  let ext := get_file_ext fname in
  DC ← (if bool_decide (dctype = EmptyString) then _DC_from_ext ext else mret dctype);
  modify (fun l => l ++ [Connector DC keep_DC]) ;;
  modify (fun l => l ++ [imp fname sel sparks]) ;;
  l ← get;
  mret (imp_reply l).

End FromFile.

(** The calls the [shape] property makes on the sheet. *)
Inductive sheet_call : Type :=
| SetShape (rows cols : Z)
| SetColCount (cols : Z)
| SetRowCount (rows : Z)
| GetRowCount
| GetColCount.

Section Shape.
(** What the sheet answers to [GetRowCount()] and [GetColCount()], and
    whether [self.obj] is a matrix sheet. *)
Variable rows_reply cols_reply : list sheet_call -> Z.
Variable is_matrix : bool.

Definition call (c : sheet_call) : py (list sheet_call) unit :=
  modify (fun l => l ++ [c]).

(** The getter of [DSheet.shape] *)
Definition shape : py (list sheet_call) (Z * Z) :=
  l ← get;
  call GetRowCount ;;
  l' ← get;
  call GetColCount ;;
  mret (rows_reply l, cols_reply l').

(** The setter of [DSheet.shape], [val] being a tuple or a list of
    integers. *)
Definition set_shape (val : list Z) : py (list sheet_call) (Z * Z) :=
  match val with
  | [rows; cols] =>
      (if is_matrix then
         if (cols <=? 0)%Z || (rows <=? 0)%Z then
           raise (ValueError "setting matrix sheet shape must provde both rows and cols")
         else call (SetShape rows cols)
       else
         when (0 <? cols)%Z (call (SetColCount cols)) ;;
         when (0 <? rows)%Z (call (SetRowCount rows))) ;;
      shape
  | _ => raise (ValueError "must set by rows, cols")
  end.

End Shape.

(** The counts a call hands to the sheet. *)
Definition sent_sizes (c : sheet_call) : list Z :=
  match c with
  | SetShape rows cols => [rows; cols]
  | SetColCount cols => [cols]
  | SetRowCount rows => [rows]
  | GetRowCount | GetColCount => []
  end.

End Sheets.

(** ** notes.py and image.py: file names handed to the host *)

Module Files.
Import Builtins Accessors.

(** The quoting [Notes.load], [Notes.exp_html] and [IPage.from_file] apply
    to [fname] before they use it. *)
Definition quoted (fname : string) : string :=
  match fname with
  | EmptyString => fname
  | String c _ =>
      if bool_decide (String c EmptyString = NLFit.dquote) then fname
      else NLFit.dquote +:+ fname +:+ NLFit.dquote
  end.

(** [int(b)] for a [bool], formatted. *)
Definition int_of_bool (b : bool) : string := if b then "1" else "0".

Section Host.
Variable host : Type.
Variable GetNumProp : string -> py host pyval.
Variable DoMethod : string -> string -> py host pyval.
Variable LT_execute : string -> py host unit.
Variable parse_int : string -> option Z.
(** [org_ver() > 10.1] *)
Variable after_10_1 : bool.

(** [Notes.load] *)
Definition load (fname : string) (askreplace : bool) : py host Z :=
  let fname := quoted fname in
  let arg := fname in
  let arg := if after_10_1 then arg +:+ ", " +:+ int_of_bool askreplace else arg in
  method_int host DoMethod parse_int "load" arg.

(** [Notes.exp_html] *)
Definition exp_html (fname : string) : py host Z :=
  method_int host DoMethod parse_int "exporthtml" (quoted fname).

(** [IPage.from_file] *)
Definition from_file (fname : string) : py host bool :=
  let fname := quoted fname in
  LT_execute ("img.Load(" +:+ fname +:+ ")") ;;
  w ← get_int host GetNumProp parse_int "Width";
  mret (0 <? w)%Z.

End Host.

(** The dtype [IPage.to_np] and [IPage.to_np2d] give to [np.asarray] for
    the code [ndf] of the data: [orgdtype_to_npdtype[ndf]], [None] where the
    subscript raises [KeyError]. *)
Definition to_np_dtype (c : TypeCodes.DF) (ndf : Z) : option TypeCodes.npdtype :=
  TypeCodes.dict_get ndf (TypeCodes.orgdtype_to_npdtype c).

End Files.

(** ** analysis.py: data, parameters and bounds of [NLFit] *)

Module NLFitParams.
Import Builtins NLFit.

(** The values the parameter methods take: a [bool], an [int], a [str] or
    [None]. *)
Inductive value : Type :=
| VBool (b : bool)
| VInt (z : Z)
| VStr (s : string)
| VNone.

(** A value inside an f-string. *)
Definition format (v : value) : string :=
  match v with
  | VBool true => "True"
  | VBool false => "False"
  | VInt z => pretty z
  | VStr s => s
  | VNone => "None"
  end.

(** A value as a condition. *)
Definition truthy (v : value) : bool :=
  match v with
  | VBool b => b
  | VInt z => negb (z =? 0)%Z
  | VStr s => negb (bool_decide (s = EmptyString))
  | VNone => false
  end.

(** The instance once its tree has a name. *)
Definition named (f : NLFit) : NLFit :=
  if bool_decide (_tree_name f = EmptyString) then set_tree_name (tree_name_of f) f else f.

(** The command [_set] issues. *)
Definition assignment (f : NLFit) (property : string) (v : value) : lt_call :=
  LT_execute (tree_name_of f +:+ "." +:+ property +:+ "=" +:+ format v).

Definition reset_ended : py session unit :=
  modify (fun s => set_me (set_ended false (me s)) s).

(** [NLFit._set] *)
Definition _set (property : string) (v : value) : py session unit :=
  tr ← _get_tree_name;
  let strLT := tr +:+ "." +:+ property +:+ "=" +:+ format v in
  host (po_LT_execute strLT).

(** [NLFit.set_data], [rng] being what [wks.to_xy_range] returns *)
Definition set_data (rng : string) (z : value) : py session unit :=
  tr ← _get_tree_name;
  s ← get;
  let xf := "nlbegin" in
  let xf := if truthy z then xf +:+ "z"
            else if _odr (me s) then xf +:+ "o" else xf in
  host (po_LT_execute (xf +:+ " " +:+ rng +:+ " " +:+ func (me s) +:+ " " +:+ tr)) ;;
  reset_ended.

(** The command word of [set_range] for an instance. *)
Definition range_word (f : NLFit) : string :=
  let xf := "nlbegin" in
  let xf := if _odr f then xf +:+ "o" else xf in
  if negb ((_implicit f && (_numIndeps f =? 2)%Z)
           || (negb (_implicit f) && (_numDeps f =? 1)%Z && (_numIndeps f =? 1)%Z))
  then xf +:+ "r" else xf.

(** [NLFit.set_range] *)
Definition set_range (rg : string) : py session unit :=
  tr ← _get_tree_name;
  s ← get;
  let xf := range_word (me s) in
  let strLT := xf +:+ " " +:+ rg +:+ " " +:+ func (me s) +:+ " " +:+ tr in
  host (po_LT_execute strLT) ;;
  reset_ended.

(** [NLFit.fix_param] *)
Definition fix_param (p : string) (val : value) : py session unit :=
  fix' ← match val with
          | VBool b => mret (if b then 1 else 0)%Z
          | _ => _set p val ;; mret 1%Z
          end;
  _set ("f_" +:+ p) (VInt fix').

(** [NLFit.set_param] *)
Definition set_param (p : string) (val : value) : py session unit := _set p val.

(** The [on] of [_set_bound]: 1 for the strict sign, 2 for the other, 0
    for anything else. *)
Definition bound_on (ctrl ctrlonx ctrlon : string) : Z :=
  if bool_decide (ctrl = EmptyString) then 0
  else if bool_decide (ctrl = ctrlonx) then 1
  else if bool_decide (ctrl = ctrlon) then 2
  else 0.

(** [NLFit._set_bound] *)
Definition _set_bound (lu p ctrl : string) (val : value) (ctrlonx ctrlon : string)
  : py session unit :=
  let on := bound_on ctrl ctrlonx ctrlon in
  _set (lu +:+ "bon_" +:+ p) (VInt (if (on =? 0)%Z then 0 else 1)) ;;
  when (negb (on =? 0)%Z)
    (_set (lu +:+ "bx_" +:+ p) (VInt (if (on =? 1)%Z then 1 else 0))) ;;
  when (truthy val) (_set (lu +:+ "b_" +:+ p) val).

(** [NLFit.set_lbound] and [NLFit.set_ubound] *)
Definition set_lbound (p ctrl : string) (val : value) : py session unit :=
  _set_bound "l" p ctrl val ">" ">=".

Definition set_ubound (p ctrl : string) (val : value) : py session unit :=
  _set_bound "u" p ctrl val "<" "<=".

(** [NLFit.param_box] *)
Definition param_box : py session unit := host (po_LT_execute "nlpara 1").

(** The methods of a session that take no answer from the host. *)
Inductive method : Type :=
| M_set_data (rng : string) (z : value)
| M_set_mdata (ms_range : string) (z : index_or_name)
| M_set_range (rg : string)
| M_fix_param (p : string) (val : value)
| M_set_param (p : string) (val : value)
| M_set_lbound (p ctrl : string) (val : value)
| M_set_ubound (p ctrl : string) (val : value)
| M_param_box
| M_fit (iter : string).

Definition invoke (m : method) : py session unit :=
  match m with
  | M_set_data rng z => set_data rng z
  | M_set_mdata r z => set_mdata r z
  | M_set_range rg => set_range rg
  | M_fix_param p v => fix_param p v
  | M_set_param p v => set_param p v
  | M_set_lbound p c v => set_lbound p c v
  | M_set_ubound p c v => set_ubound p c v
  | M_param_box => param_box
  | M_fit iter => fit iter
  end.

Definition invoke_all (ms : list method) (s : session) : session :=
  fold_left (fun s m => snd (invoke m s)) ms s.

(** The methods that begin a fit on new data. *)
Definition begins (m : method) : bool :=
  match m with
  | M_set_data _ _ | M_set_mdata _ _ | M_set_range _ => true
  | _ => false
  end.

(** The instance a method leaves: named unless the method does not use the
    tree, and not finalized any more if the method begins a fit. *)
Definition touched (m : method) (f : NLFit) : NLFit :=
  let f := match m with M_param_box | M_fit _ => f | _ => named f end in
  if begins m then set_ended false f else f.

End NLFitParams.

(** ** analysis.py: the linear fit [LinearFit] *)

Module LinearFit.
Import Builtins NLFit NLFitParams.

(** The attributes of a [LinearFit] instance; [lr_ident] is [id(self)]. *)
Record LinearFit : Type := mkLinearFit {
  lr_ident : Z;
  lr_tree_name : string;
  lr_output_tree_name : string
}.

Record lr_session : Type := mkLrSession { lr_me : LinearFit; lr_calls : list lt_call }.

Definition set_lr_me (f : LinearFit) (s : lr_session) : lr_session :=
  mkLrSession f (lr_calls s).

Definition set_lr_calls (l : list lt_call) (s : lr_session) : lr_session :=
  mkLrSession (lr_me s) l.

Definition lr_host {A} (c : py (list lt_call) A) : py lr_session A :=
  zoom lr_calls set_lr_calls c.

(** [LinearFit._get_tree_name] *)
Definition _get_tree_name : py lr_session string :=
  s ← get;
  (if bool_decide (lr_tree_name (lr_me s) = EmptyString) then
     modify (set_lr_me (mkLinearFit (lr_ident (lr_me s))
                          ("_PY_LR_TREE_" +:+ pretty (lr_ident (lr_me s)))
                          (lr_output_tree_name (lr_me s))))
   else mret tt) ;;
  s' ← get;
  mret (lr_tree_name (lr_me s')).

(** [LinearFit._get_output_tree_name] *)
Definition _get_output_tree_name : py lr_session string :=
  s ← get;
  (if bool_decide (lr_output_tree_name (lr_me s) = EmptyString) then
     modify (set_lr_me (mkLinearFit (lr_ident (lr_me s))
                          (lr_tree_name (lr_me s))
                          ("_PY_LR_OUTPUT_" +:+ pretty (lr_ident (lr_me s)))))
   else mret tt) ;;
  s' ← get;
  mret (lr_output_tree_name (lr_me s')).

(** [LinearFit.__init__], run on the store that holds the new instance. *)
Definition __init__ : py lr_session unit :=
  modify (fun s => set_lr_me (mkLinearFit (lr_ident (lr_me s)) EmptyString EmptyString) s) ;;
  strGUITreeName ← _get_tree_name;
  lr_host (po_LT_execute ("Tree " +:+ strGUITreeName)) ;;
  let strLT := "xop execute:=init classname:=FitLinear iotrgui:=" +:+ strGUITreeName in
  lr_host (po_LT_execute strLT).

(** [LinearFit._set] *)
Definition _set (property : string) (v : value) : py lr_session unit :=
  tr ← _get_tree_name;
  let strLT := tr +:+ ".GUI." +:+ property +:+ "=" +:+ format v in
  lr_host (po_LT_execute strLT).

Section Host.
Variable get_str_reply : list lt_call -> string -> outcome string.
Variable evaluate_reply : list lt_call -> string -> pyval.
Variable tree_dict : Type.
Variable tree_reply : list lt_call -> string -> tree_dict.

(** [LinearFit.result] *)
Definition result : py lr_session tree_dict :=
  trOut ← _get_output_tree_name;
  strGUITreeName ← _get_tree_name;
  let strLT := "xop execute:=run iotrgui:=" +:+ strGUITreeName
               +:+ " otrresult:=" +:+ trOut in
  lr_host (po_LT_execute strLT) ;;
  dd ← lr_host (utils_lt_tree_to_dict tree_dict tree_reply trOut);
  lr_host (po_LT_execute ("del -vt " +:+ trOut)) ;;
  mret dd.

(** [LinearFit.report], [band & 1] and [band & 2] being tested for a
    non-zero value. *)
Definition report (band : Z) : py lr_session (string * string) :=
  when (negb (Z.land band 1 =? 0)%Z) (_set "Graph1.ConfBands" (VInt 1)) ;;
  when (negb (Z.land band 2 =? 0)%Z) (_set "Graph1.PredBands" (VInt 1)) ;;
  strGUITreeName ← _get_tree_name;
  let strLT := "xop execute:=report iotrgui:=" +:+ strGUITreeName in
  oldVal ← lr_host (po_LT_evaluate evaluate_reply "@NLFS");
  lr_host (po_LT_set_var "@NLFS" (PyInt 0)) ;;
  lr_host (po_LT_execute strLT) ;;
  lr_host (po_LT_set_var "@NLFS" oldVal) ;;
  r ← lr_host (po_LT_get_str get_str_reply "__REPORT");
  c ← lr_host (po_LT_get_str get_str_reply "__FITCURVE");
  mret (r, c).

End Host.

(** A new instance with the identity [i], before [__init__]. *)
Definition blank (i : Z) : lr_session := mkLrSession (mkLinearFit i EmptyString EmptyString) [].

(** The names the two getters give to the trees of the instance [i]. *)
Definition gui_tree (i : Z) : string := "_PY_LR_TREE_" +:+ pretty i.
Definition output_tree (i : Z) : string := "_PY_LR_OUTPUT_" +:+ pretty i.

(** The trees of a session are unnamed or carry the names of the getters. *)
Definition default_named (s : lr_session) : Prop :=
  (lr_tree_name (lr_me s) = EmptyString
   ∨ lr_tree_name (lr_me s) = gui_tree (lr_ident (lr_me s)))
  ∧ (lr_output_tree_name (lr_me s) = EmptyString
     ∨ lr_output_tree_name (lr_me s) = output_tree (lr_ident (lr_me s))).

(** The commands that delete a tree. *)
Definition deletes (tree : string) (c : lt_call) : bool :=
  match c with
  | LT_execute cmd => bool_decide (cmd = "del -vt " +:+ tree)
  | _ => false
  end.

End LinearFit.

(** * Properties *)

Ltac py_unfold :=
  unfold mbind, mret, py_bind, py_ret, bind, ret, raise, get, modify, when,
    zoom, except_ValueError, except_Exception_raise, Builtins.lift in *.

(** ** The live object count *)

Section Lifecycle.
Import BaseObject.

Lemma construct_store (o : option handle) (s : process) :
  snd (construct o s) =
  let self := fresh (objs s) in
  let s1 := set_objs ({[self]} ∪ objs s) s in
  let s2 := if oext s then set_OBJS_COUNT (_OBJS_COUNT s + 1) s1 else s1 in
  match o with
  | None => s2
  | Some h => set_obj (<[self := h]> (obj s)) s2
  end.
Proof. unfold construct, __init__. py_unfold. destruct s as [[] ? ? ? ? ? ?], o; reflexivity. Qed.

Lemma Detach_returns (a : Config.app_state) :
  Config.Detach a = (Returned tt, snd (Config.Detach a)).
Proof.
  unfold Config.Detach, Config.Exit, Config.emit, Config.set_app. py_unfold.
  destruct a as [[[k|] f] ev]; reflexivity.
Qed.

Lemma po_Detach_store (s : process) :
  po_Detach s = (Returned tt, set_po (snd (Config.Detach (po s))) (note_detach s)).
Proof.
  unfold po_Detach. py_unfold. simpl. rewrite Detach_returns. reflexivity.
Qed.

Lemma del_store (self : nat) (s : process) : __del__ self s = (Returned tt, after_del s).
Proof.
  unfold __del__, after_del. py_unfold. destruct s as [[] ex c ? ? ? ?]; simpl; [|reflexivity].
  destruct (ex && (c - 1 =? 0)%Z); [|reflexivity].
  rewrite po_Detach_store. reflexivity.
Qed.

Lemma destroy_store (id : nat) (s : process) :
  snd (destroy id s) =
  if decide (id ∈ objs s) then
    let s2 := after_del (set_objs (objs s ∖ {[id]}) s) in
    set_obj (delete id (obj s2)) s2
  else s.
Proof.
  unfold destroy. py_unfold. destruct (decide _); [|reflexivity].
  rewrite del_store. reflexivity.
Qed.

Lemma exit_handler_store (s : process) :
  _exit_handler s =
  (Returned tt,
   let s1 := set_EXIT true s in
   if (_OBJS_COUNT s1 =? 0)%Z
   then set_po (snd (Config.Detach (po s1))) (note_detach s1)
   else s1).
Proof.
  unfold _exit_handler. py_unfold. simpl.
  destruct (_OBJS_COUNT s =? 0)%Z; [|reflexivity].
  rewrite po_Detach_store. reflexivity.
Qed.

Lemma step_oext (s : process) (o : op) : oext (step s o) = oext s.
Proof.
  destruct o as [r|id|]; simpl.
  - rewrite construct_store. destruct s as [[] ? ? ? ? ? ?], r; reflexivity.
  - rewrite destroy_store. destruct (decide _); [|reflexivity].
    unfold after_del. destruct s as [[] ex c ? ? ? ?]; simpl; [|reflexivity].
    destruct (ex && (c - 1 =? 0)%Z); reflexivity.
  - destruct (oext s) eqn:E; [|exact E].
    rewrite exit_handler_store. simpl.
    destruct (_OBJS_COUNT s =? 0)%Z; exact E.
Qed.

Lemma run_oext (ops : list op) (s : process) : oext (run ops s) = oext s.
Proof.
  revert s. induction ops as [|o ops IH]; intros s; simpl; [reflexivity|].
  unfold run in IH. rewrite IH. apply step_oext.
Qed.

Lemma counted_init (mode : bool) : counted (init mode).
Proof.
  unfold counted, live. simpl. split; [destruct mode; reflexivity|].
  rewrite dom_empty_L. set_solver.
Qed.

Lemma counted_step (s : process) (o : op) : counted s → counted (step s o).
Proof.
  intros [Hc Hl]. unfold counted, live in *. destruct o as [r|id|]; simpl.
  - rewrite construct_store.
    pose proof (is_fresh (objs s)) as Hf.
    assert (size ({[fresh (objs s)]} ∪ objs s) = S (size (objs s))) as Hs.
    { rewrite size_union by set_solver. rewrite size_singleton. reflexivity. }
    destruct s as [[] ex c a O M L], r as [h|]; simpl in *;
      rewrite ?Hs, ?dom_insert_L; (split; [lia | set_solver]).
  - rewrite destroy_store. destruct (decide _) as [Hin|]; [|tauto].
    assert (size (objs s ∖ {[id]}) = size (objs s) - 1) as Hs.
    { rewrite size_difference by set_solver. rewrite size_singleton. reflexivity. }
    assert (0 < size (objs s)) as Hpos.
    { destruct (size (objs s)) eqn:E; [|lia].
      apply size_empty_iff in E. set_solver. }
    unfold after_del. destruct s as [[] ex c a O M L]; simpl in *.
    + destruct (ex && (c - 1 =? 0)%Z); simpl; rewrite Hs, dom_delete_L;
        (split; [lia | set_solver]).
    + rewrite dom_delete_L. split; [assumption | set_solver].
  - destruct (oext s) eqn:E; [|rewrite E; tauto].
    rewrite exit_handler_store. simpl.
    destruct (_OBJS_COUNT s =? 0)%Z; simpl; rewrite E; tauto.
Qed.

Lemma counted_run (ops : list op) (s : process) : counted s → counted (run ops s).
Proof.
  revert s. induction ops as [|o ops IH]; intros s H; simpl; [exact H|].
  apply IH, counted_step, H.
Qed.

(** C1, as amended. The count never becomes negative. With OriginExt it
    equals, after every operation, the number of wrapper instances that
    exist and are not yet finalised: the completed wrappers together with
    the instances whose [__init__] raised and which still await [__del__].
    Without OriginExt it stays at zero. *)
Theorem live_count_invariant (mode : bool) (ops : list op) :
  let s := run ops (init mode) in
  (0 ≤ _OBJS_COUNT s)%Z
  ∧ (if mode
     then _OBJS_COUNT s = Z.of_nat (size (live s) + size (objs s ∖ live s))
     else _OBJS_COUNT s = 0%Z)
  ∧ live s ⊆ objs s.
Proof.
  intros s. destruct (counted_run ops (init mode) (counted_init mode)) as [Hc Hl].
  fold s in Hc, Hl. assert (oext s = mode) as Hm by apply run_oext.
  rewrite Hm in Hc.
  assert (size (objs s) = size (live s) + size (objs s ∖ live s)) as Hsplit.
  { rewrite <- size_union by set_solver.
    f_equal. apply set_eq. intros x. split; [|set_solver].
    intros Hx. destruct (decide (x ∈ live s)); set_solver. }
  destruct mode; (split; [lia|]); (split; [lia || assumption | assumption]).
Qed.

(** C1, as stated, fails without OriginExt: one wrapper is live and the
    count is zero. *)
Lemma live_count_embedded_counterexample :
  let s := run [Construct (Some 7)] (init false) in
  _OBJS_COUNT s = 0%Z ∧ size (live s) = 1
  ∧ _OBJS_COUNT s ≠ Z.of_nat (size (live s)).
Proof. vm_compute. repeat split; discriminate. Qed.

(** ** Detaching from the host *)

Lemma released_step (s : process) (o : op) :
  counted s → Forall released (detach_log s) → Forall released (detach_log (step s o)).
Proof.
  intros [Hc Hl] HF. destruct o as [r|id|]; simpl.
  - rewrite construct_store. destruct s as [[] ex c a O M L], r; exact HF.
  - rewrite destroy_store. destruct (decide _) as [Hin|]; [|exact HF].
    unfold after_del. destruct s as [[] ex c a O M L]; simpl in *; [|exact HF].
    destruct ex; simpl; [|exact HF].
    destruct (c - 1 =? 0)%Z eqn:E; simpl; [|exact HF].
    apply Forall_app; split; [exact HF|]. apply Forall_singleton.
    apply Z.eqb_eq in E. repeat split; simpl; [assumption|].
    apply leibniz_equiv, size_empty_iff.
    rewrite size_difference by set_solver. rewrite size_singleton. lia.
  - destruct (oext s) eqn:Eo; [|exact HF].
    rewrite exit_handler_store. simpl.
    destruct (_OBJS_COUNT s =? 0)%Z eqn:E; simpl; [|exact HF].
    apply Forall_app; split; [exact HF|]. apply Forall_singleton.
    apply Z.eqb_eq in E. repeat split; simpl; [assumption|].
    apply leibniz_equiv, size_empty_iff. lia.
Qed.

Lemma released_run (ops : list op) (s : process) :
  counted s → Forall released (detach_log s) → Forall released (detach_log (run ops s)).
Proof.
  revert s. induction ops as [|o ops IH]; intros s Hc HF; simpl; [exact HF|].
  apply IH; [apply counted_step, Hc | apply released_step; assumption].
Qed.

Lemma embedded_step_log (s : process) (o : op) :
  oext s = false → detach_log (step s o) = detach_log s.
Proof.
  intros E. destruct o as [r|id|]; simpl.
  - rewrite construct_store. destruct s as [[] ex c a O M L], r; try discriminate; reflexivity.
  - rewrite destroy_store. destruct (decide _); [|reflexivity].
    unfold after_del. destruct s as [[] ex c a O M L]; try discriminate; reflexivity.
  - rewrite E. reflexivity.
Qed.

Lemma embedded_run_log (ops : list op) (s : process) :
  oext s = false → detach_log (run ops s) = detach_log s.
Proof.
  revert s. induction ops as [|o ops IH]; intros s E; simpl; [reflexivity|].
  unfold run in IH. rewrite IH by (rewrite step_oext; exact E).
  apply embedded_step_log, E.
Qed.

Lemma answered_step (s : process) (o : op) :
  oext s = true → counted s → answered s → answered (step s o).
Proof.
  intros Eo [Hc Hl] Ha. rewrite Eo in Hc. unfold answered in *.
  destruct o as [r|id|]; simpl.
  - rewrite construct_store. destruct s as [[] ex c a O M L], r; simpl in *;
      try discriminate; intros _ H0; lia.
  - rewrite destroy_store. destruct (decide _); [|exact Ha].
    unfold after_del. destruct s as [[] ex c a O M L]; simpl in *; try discriminate.
    destruct ex; simpl; [|intros; discriminate].
    destruct (c - 1 =? 0)%Z eqn:E; simpl.
    + intros _ _. destruct L; discriminate.
    + intros _ H0. apply Z.eqb_neq in E. contradiction.
  - rewrite Eo, exit_handler_store. simpl.
    destruct (_OBJS_COUNT s =? 0)%Z eqn:E; simpl.
    + intros _ _. destruct (detach_log s); discriminate.
    + intros _ H0. apply Z.eqb_neq in E. contradiction.
Qed.

Lemma exit_flag_step (s : process) (o : op) : _EXIT s = true → _EXIT (step s o) = true.
Proof.
  intros E. destruct o as [r|id|]; simpl.
  - rewrite construct_store. destruct s as [[] ex c a O M L], r; exact E.
  - rewrite destroy_store. destruct (decide _); [|exact E].
    unfold after_del. destruct s as [[] ex c a O M L]; simpl in *; [|exact E].
    destruct (ex && (c - 1 =? 0)%Z); exact E.
  - destruct (oext s); [|exact E]. rewrite exit_handler_store. simpl.
    destruct (_OBJS_COUNT s =? 0)%Z; reflexivity.
Qed.

Lemma exit_flag_set (s : process) : oext s = true → _EXIT (step s AtExit) = true.
Proof.
  intros Eo. simpl. rewrite Eo, exit_handler_store. simpl.
  destruct (_OBJS_COUNT s =? 0)%Z; reflexivity.
Qed.

Lemma exit_flag_run (ops : list op) (s : process) :
  oext s = true → (_EXIT s = true ∨ In AtExit ops) → _EXIT (run ops s) = true.
Proof.
  revert s. induction ops as [|o ops IH]; intros s Eo [E|Hin]; simpl.
  - exact E.
  - destruct Hin.
  - apply IH; [rewrite step_oext; exact Eo | left; apply exit_flag_step, E].
  - apply IH; [rewrite step_oext; exact Eo |].
    destruct Hin as [->|Hin]; [left; apply exit_flag_set, Eo | right; exact Hin].
Qed.

Lemma answered_run (ops : list op) (s : process) :
  oext s = true → counted s → answered s → answered (run ops s).
Proof.
  revert s. induction ops as [|o ops IH]; intros s Eo Hc Ha; simpl; [exact Ha|].
  apply IH; [rewrite step_oext; exact Eo | apply counted_step, Hc
            | apply answered_step; assumption].
Qed.

(** C2, as amended. Every call of [po.Detach()] made by [_exit_handler] or
    [__del__] is made with the exit flag set, the count at zero and no
    wrapper instance left. Without OriginExt no call is made; with it, a
    run in which the exit handler ran and every instance was finalised has
    made at least one. *)
Theorem detach_only_when_released (mode : bool) (ops : list op) :
  let s := run ops (init mode) in
  Forall released (detach_log s)
  ∧ (mode = false → detach_log s = [])
  ∧ (mode = true → In AtExit ops → objs s = ∅ → detach_log s ≠ []).
Proof.
  intros s. split; [|split].
  - apply released_run; [apply counted_init | constructor].
  - intros ->. apply (embedded_run_log ops (init false)). reflexivity.
  - intros -> Hin He.
    destruct (counted_run ops (init true) (counted_init true)) as [Hc _].
    fold s in Hc. replace (oext s) with true in Hc by (symmetry; apply run_oext).
    apply (answered_run ops (init true)); [reflexivity | apply counted_init | | | ].
    + intros E; discriminate.
    + apply exit_flag_run; [reflexivity | right; exact Hin].
    + fold s. rewrite Hc, He, size_empty. reflexivity.
Qed.

Lemma detach_only_when_released_witness :
  let s := run [Construct (Some 7); AtExit; Destroy 0] (init true) in
  Forall released (detach_log s) ∧ detach_log s ≠ [].
Proof.
  pose proof (detach_only_when_released true [Construct (Some 7); AtExit; Destroy 0])
    as (HF & _ & Hne).
  split; [exact HF|]. apply Hne; [reflexivity | simpl; tauto | vm_compute; reflexivity].
Defined.

(** C2, as stated, fails on three runs: without OriginExt the run that
    makes a wrapper, exits and finalises it never detaches; with OriginExt
    the run whose wrapper is live when the handler runs and is not
    finalised does not detach either; and the run that makes and finalises
    a wrapper after the handler detaches twice. *)
Lemma detach_exactly_once_counterexample :
  length (detach_log (run [Construct (Some 7); AtExit; Destroy 0] (init false))) = 0
  ∧ length (detach_log (run [Construct (Some 7); AtExit] (init true))) = 0
  ∧ length (detach_log (run [AtExit; Construct (Some 7); Destroy 0] (init true))) = 2.
Proof. vm_compute. repeat split. Qed.

(** ** A constructor given no reference *)

(** C3, as amended. [__init__] given [None] raises [TypeError] and assigns
    no [obj] attribute; with OriginExt the count has been raised by one
    before the test (without it the count is untouched), and finalising the
    discarded instance gives the count its former value. *)
Theorem init_None_raises (self : nat) (s : process) :
  __init__ self None s
  = (Raised TypeError, if oext s then set_OBJS_COUNT (_OBJS_COUNT s + 1) s else s)
  ∧ obj (snd (__init__ self None s)) = obj s
  ∧ _OBJS_COUNT (snd (__init__ self None s))
    = (if oext s then _OBJS_COUNT s + 1 else _OBJS_COUNT s)%Z
  ∧ _OBJS_COUNT (snd (__del__ self (snd (__init__ self None s)))) = _OBJS_COUNT s.
Proof.
  rewrite del_store. unfold __init__, after_del. py_unfold.
  destruct s as [[] ex c a O M L]; simpl; repeat split.
  replace (c + 1 - 1)%Z with c by lia.
  destruct (ex && (c =? 0)%Z); reflexivity.
Qed.

(** C3, as stated, fails with OriginExt: the failed construction leaves the
    count one higher. *)
Lemma init_None_counts_counterexample :
  fst (__init__ 0 None (init true)) = Raised TypeError
  ∧ _OBJS_COUNT (init true) = 0%Z
  ∧ _OBJS_COUNT (snd (__init__ 0 None (init true))) = 1%Z.
Proof. vm_compute. repeat split. Qed.

End Lifecycle.

(** ** The type-code tables *)

Section TypeCodeTables.
Import TypeCodes.

Section DictFacts.
Context {K V : Type} `{EqDecision K}.
Implicit Types (d l : list (K * V)).

Lemma dict_get_set (k k' : K) (v : V) d :
  dict_get k (dict_set k' v d) = if decide (k = k') then Some v else dict_get k d.
Proof.
  induction d as [|[k0 v0] d IH]; simpl.
  - destruct (decide (k = k')); reflexivity.
  - destruct (decide (k' = k0)) as [->|Hne]; simpl.
    + destruct (decide (k = k0)); reflexivity.
    + rewrite IH. destruct (decide (k = k0)) as [->|]; [|reflexivity].
      destruct (decide (k0 = k')); [congruence | reflexivity].
Qed.

Lemma dict_get_app (k : K) l d :
  dict_get k (l ++ d) = match dict_get k l with Some v => Some v | None => dict_get k d end.
Proof.
  induction l as [|[k0 v0] l IH]; simpl; [reflexivity|].
  destruct (decide (k = k0)); [reflexivity | exact IH].
Qed.

(** Reading a dict built from items gives the last item stored under the
    key. *)
Lemma dict_get_fold (k : K) l d :
  dict_get k (fold_left (fun d kv => dict_set (fst kv) (snd kv) d) l d)
  = match dict_get k (rev l) with Some v => Some v | None => dict_get k d end.
Proof.
  revert d. induction l as [|[k0 v0] l IH]; intros d; simpl; [reflexivity|].
  rewrite IH, dict_get_app, dict_get_set. simpl.
  destruct (dict_get k (rev l)); [reflexivity|].
  destruct (decide (k = k0)); reflexivity.
Qed.

Lemma dict_get_of_items (k : K) l : dict_get k (dict_of_items l) = dict_get k (rev l).
Proof.
  unfold dict_of_items. rewrite dict_get_fold. destruct (dict_get k (rev l)); reflexivity.
Qed.

Lemma dict_get_In (k : K) (v : V) l : dict_get k l = Some v → In (k, v) l.
Proof.
  induction l as [|[k0 v0] l IH]; simpl; [discriminate|].
  destruct (decide (k = k0)) as [->|]; [intros [= ->]; left; reflexivity | right; auto].
Qed.

End DictFacts.

Lemma npdtype_to_orgdtype_items (c : DF) :
  npdtype_to_orgdtype c =
  [(float64, DF_DOUBLE c); (float32, DF_FLOAT c); (int16, DF_SHORT c);
   (int32, DF_LONG c); (int8, DF_CHAR c); (uint8, DF_BYTE c);
   (uint16, DF_USHORT c); (uint32, DF_ULONG c); (complex128, DF_COMPLEX c);
   (int64, DF_LONG c)].
Proof. reflexivity. Qed.

Lemma decode_last (c : DF) (v : Z) :
  decode c v = dict_get v (rev (map (fun kv => (snd kv, fst kv)) (npdtype_to_orgdtype c))).
Proof. unfold decode, orgdtype_to_npdtype. apply dict_get_of_items. Qed.

Lemma encode_total (c : DF) (k : npdtype) : is_Some (encode c k).
Proof. destruct k; eexists; reflexivity. Qed.

Lemma decode_then_encode (c : DF) (v : Z) (k : npdtype) :
  decode c v = Some k → encode c k = Some v.
Proof.
  rewrite decode_last. intros H. apply dict_get_In in H.
  rewrite npdtype_to_orgdtype_items in H. simpl in H.
  repeat (destruct H as [[= <- <-]|H]; [reflexivity|]). destruct H.
Qed.

Lemma decode_defined (c : DF) (k : npdtype) (v : Z) :
  encode c k = Some v → is_Some (decode c v).
Proof.
  intros H. rewrite decode_last. apply dict_get_In in H.
  rewrite npdtype_to_orgdtype_items in *. simpl in *.
  repeat (destruct H as [[= <- <-]|H];
          [repeat (destruct (decide _); [eexists; reflexivity|]); congruence|]).
  destruct H.
Qed.

Lemma roundtrip_int32 (c : DF) : roundtrip c int32 = Some int64.
Proof.
  unfold roundtrip. change (encode c int32) with (Some (DF_LONG c)). simpl.
  rewrite decode_last, npdtype_to_orgdtype_items. simpl.
  destruct (decide _); [reflexivity | congruence].
Qed.

Lemma roundtrip_distinct (c : DF) (k : npdtype) :
  NoDup (codes c) → k ≠ int32 → roundtrip c k = Some k.
Proof.
  intros Hnd Hk. destruct c as [c0 c1 c2 c3 c4 c5 c6 c7 c8]. unfold codes in Hnd.
  simpl in Hnd.
  repeat (apply NoDup_cons in Hnd as [? Hnd]).
  repeat match goal with H : _ ∉ _ :: _ |- _ => apply not_elem_of_cons in H as [? H] end.
  unfold roundtrip.
  destruct k; try congruence;
    (match goal with |- encode ?c ?k ≫= _ = _ =>
       let v := eval cbv in (encode c k) in change (encode c k) with v end);
    simpl; rewrite decode_last, npdtype_to_orgdtype_items; simpl;
    repeat (destruct (decide _); [congruence|]); congruence.
Qed.

(** C4, as amended. Every dtype of the table has a storage code, and every
    code of the inverse table decodes to a dtype that encodes back to that
    code. The tables are not inverse to one another on the dtypes:
    [np.int32] and [np.int64] share [DF_LONG], which decodes to [np.int64];
    when the nine codes differ, every dtype but [np.int32] is returned by
    encoding and then decoding it. *)
Theorem type_code_tables (c : DF) :
  (∀ k, is_Some (encode c k))
  ∧ (∀ k v, encode c k = Some v → is_Some (decode c v))
  ∧ (∀ v k, decode c v = Some k → encode c k = Some v)
  ∧ roundtrip c int32 = Some int64
  ∧ (NoDup (codes c) → ∀ k, k ≠ int32 → roundtrip c k = Some k).
Proof.
  split; [apply encode_total|]. split; [apply decode_defined|].
  split; [apply decode_then_encode|]. split; [apply roundtrip_int32|].
  intros Hnd k Hk. apply roundtrip_distinct; assumption.
Qed.

Lemma type_code_tables_witness :
  NoDup (codes distinct_codes) ∧ roundtrip distinct_codes uint16 = Some uint16.
Proof.
  assert (NoDup (codes distinct_codes)) as Hnd
    by (apply (bool_decide_unpack (NoDup (codes distinct_codes))); vm_compute; exact I).
  split; [exact Hnd|].
  apply (type_code_tables distinct_codes); [exact Hnd | discriminate].
Defined.

(** C4, as stated, fails: [np.int32] is encoded and decoded to [np.int64]. *)
Lemma type_code_roundtrip_counterexample :
  encode distinct_codes int32 = Some 3%Z
  ∧ decode distinct_codes 3%Z = Some int64
  ∧ roundtrip distinct_codes int32 ≠ Some int32.
Proof. vm_compute. repeat split. discriminate. Qed.

End TypeCodeTables.

(** ** The integer accessors *)

Section IntAccessors.
Import Builtins Accessors.

Section AnyHost.
Variable host : Type.
Variable GetNumProp : string -> py host pyval.
Variable DoMethod : string -> string -> py host pyval.
Variable parse_int : string -> option Z.

(** The [try] block of both accessors: a value returned by the host is
    coerced, and [ValueError] alone is replaced by zero. *)
Lemma coerce_or_zero (call : py host pyval) (σ σ' : host) (v : pyval) :
  call σ = (Returned v, σ') →
  except_ValueError (v ← call; lift (int parse_int v)) (mret 0%Z) σ
  = match int parse_int v with
    | Returned z => (Returned z, σ')
    | Raised (ValueError _) => (Returned 0%Z, σ')
    | Raised e => (Raised e, σ')
    end.
Proof.
  intros H. py_unfold. rewrite H.
  destruct (int parse_int v) as [z|[]]; reflexivity.
Qed.

(** C6, as amended. When the host returns a value, [get_int] and
    [method_int] return its coercion by [int] where that succeeds, and 0
    where [int] raises [ValueError]. *)
Theorem int_accessors_coerce (prop name arg : string) (σ σ' : host) (v : pyval) :
  (GetNumProp prop σ = (Returned v, σ') →
     (∀ z, int parse_int v = Returned z →
           get_int host GetNumProp parse_int prop σ = (Returned z, σ'))
     ∧ (∀ m, int parse_int v = Raised (ValueError m) →
             get_int host GetNumProp parse_int prop σ = (Returned 0%Z, σ')))
  ∧ (DoMethod name arg σ = (Returned v, σ') →
     (∀ z, int parse_int v = Returned z →
           method_int host DoMethod parse_int name arg σ = (Returned z, σ'))
     ∧ (∀ m, int parse_int v = Raised (ValueError m) →
             method_int host DoMethod parse_int name arg σ = (Returned 0%Z, σ'))).
Proof.
  split; intros H; split; intros x Hx;
    unfold get_int, get_float, method_int, method_float;
    rewrite (coerce_or_zero _ σ σ' v H), Hx; reflexivity.
Qed.

End AnyHost.

Lemma int_accessors_coerce_witness :
  get_int unit (constant_host (PyFloat minus_two_and_a_half)) (fun _ => None) "nrows" tt
  = (Returned (-2)%Z, tt)
  ∧ get_int unit (constant_host (PyFloat S754_nan)) (fun _ => None) "nrows" tt
    = (Returned 0%Z, tt)
  ∧ method_int unit (fun n _ => constant_host (PyFloat S754_nan) n) (fun _ => None)
      "isColSel" "3" tt
    = (Returned 0%Z, tt).
Proof.
  split; [|split].
  - apply (int_accessors_coerce unit (constant_host (PyFloat minus_two_and_a_half))
             (fun n _ => constant_host PyNone n) (fun _ => None)
             "nrows" "isColSel" "3" tt tt (PyFloat minus_two_and_a_half));
      reflexivity.
  - apply (int_accessors_coerce unit (constant_host (PyFloat S754_nan))
             (fun n _ => constant_host PyNone n) (fun _ => None)
             "nrows" "isColSel" "3" tt tt (PyFloat S754_nan)
             ) with (m := "cannot convert float NaN to integer"); reflexivity.
  - apply (int_accessors_coerce unit (constant_host PyNone)
             (fun n _ => constant_host (PyFloat S754_nan) n) (fun _ => None)
             "nrows" "isColSel" "3" tt tt (PyFloat S754_nan)
             ) with (m := "cannot convert float NaN to integer"); reflexivity.
Defined.

(** C6, as stated, fails: the coercion of an infinity fails with
    [OverflowError], which neither accessor replaces by zero. *)
Lemma int_accessors_infinity_counterexample :
  int (fun _ => None) (PyFloat (S754_infinity false)) = Raised OverflowError
  ∧ get_int unit (constant_host (PyFloat (S754_infinity false))) (fun _ => None) "nrows" tt
    = (Raised OverflowError, tt)
  ∧ method_int unit (fun n _ => constant_host (PyFloat (S754_infinity false)) n)
      (fun _ => None) "isColSel" "3" tt
    = (Raised OverflowError, tt).
Proof. repeat split. Qed.

End IntAccessors.

(** ** Attaching to the host *)

Section LazyAttach.
Import Config.

Variable OriginExt_has : string -> bool.
Variable host_reachable : bool.

Lemma getattr_module (name : string) (s : app_state) :
  OriginExt_has name = true →
  __getattr__ OriginExt_has host_reachable name s = (Returned (ModuleAttr name), s).
Proof. intros H. unfold __getattr__. rewrite H. reflexivity. Qed.

Lemma read_all_module (names : list string) (s : app_state) :
  (∀ n, In n names → OriginExt_has n = true) →
  read_all OriginExt_has host_reachable names s = (Returned tt, s).
Proof.
  induction names as [|n names IH]; intros H; simpl; [reflexivity|].
  py_unfold. rewrite getattr_module by (apply H; left; reflexivity).
  apply IH. intros m Hm. apply H. right. exact Hm.
Qed.

(** What a forwarded read does: the answer, and the calls added. *)
Lemma getattr_forwarded (name : string) (s : app_state) :
  OriginExt_has name = false →
  __getattr__ OriginExt_has host_reachable name s =
  match _app (self s) with
  | Some a => (Returned (AppAttr a name), s)
  | None =>
      if host_reachable then
        (Returned (AppAttr Application name),
         mkAppState (mkAPP (Some Application) (_first (self s)))
           (events s ++ [Ev_new Application; Ev_LT_execute "sec -poc"]))
      else (Raised HostError, s)
  end.
Proof.
  intros H. unfold __getattr__, new_app, emit, set_app. rewrite H. py_unfold.
  destruct s as [[[a|] f] ev]; simpl; [reflexivity|].
  destruct host_reachable; simpl; [|reflexivity].
  rewrite <- app_assoc. reflexivity.
Qed.

End LazyAttach.

(** C7. [APP()] holds no application object and has made no call; the reads
    config.py makes while it is imported are answered by the OriginExt
    module, when it defines the [DF_*] names, and leave that so. A read the
    module cannot answer creates the application object if there is none,
    and issues the wait command [sec -poc] before it returns; whenever such
    a read returns, an application object is held. *)
Theorem app_attached_lazily (OriginExt_has : string -> bool) (host_reachable : bool) :
  Config._app Config.__init__ = None
  ∧ Config.events Config.fresh_state = []
  ∧ ((∀ n, In n Config.import_reads → OriginExt_has n = true) →
     Config.module_load OriginExt_has host_reachable = (Returned tt, Config.fresh_state))
  ∧ (∀ name s, OriginExt_has name = true →
       Config.__getattr__ OriginExt_has host_reachable name s
       = (Returned (Config.ModuleAttr name), s))
  ∧ (∀ name s, OriginExt_has name = false → Config._app (Config.self s) = None →
       host_reachable = true →
       Config.__getattr__ OriginExt_has host_reachable name s
       = (Returned (Config.AppAttr Config.Application name),
          Config.mkAppState
            (Config.mkAPP (Some Config.Application) (Config._first (Config.self s)))
            (Config.events s
               ++ [Config.Ev_new Config.Application; Config.Ev_LT_execute "sec -poc"])))
  ∧ (∀ name s a s', OriginExt_has name = false →
       Config.__getattr__ OriginExt_has host_reachable name s = (Returned a, s') →
       ∃ k, a = Config.AppAttr k name ∧ Config._app (Config.self s') = Some k).
Proof.
  split; [reflexivity|]. split; [reflexivity|]. split; [|split; [|split]].
  - intros H. apply read_all_module, H.
  - intros name s H. apply getattr_module, H.
  - intros name s H Hn Hr. rewrite getattr_forwarded by exact H.
    rewrite Hn, Hr. reflexivity.
  - intros name s a s' H. rewrite getattr_forwarded by exact H.
    destruct (Config._app (Config.self s)) as [k|] eqn:E.
    + intros [= <- <-]. exists k. split; [reflexivity | exact E].
    + destruct host_reachable; [|discriminate].
      intros [= <- <-]. exists Config.Application. split; reflexivity.
Qed.

Lemma app_attached_lazily_witness :
  Config.module_load Config.defines_DF true = (Returned tt, Config.fresh_state)
  ∧ Config.__getattr__ Config.defines_DF true "LT_execute" Config.fresh_state
    = (Returned (Config.AppAttr Config.Application "LT_execute"),
       Config.mkAppState (Config.mkAPP (Some Config.Application) true)
         [Config.Ev_new Config.Application; Config.Ev_LT_execute "sec -poc"]).
Proof.
  pose proof (app_attached_lazily Config.defines_DF true) as (_ & _ & Hload & _ & Hfirst & _).
  split.
  - apply Hload. intros n Hn. simpl in Hn.
    repeat (destruct Hn as [<-|Hn]; [reflexivity|]). destruct Hn.
  - apply (Hfirst "LT_execute" Config.fresh_state); reflexivity.
Defined.

(** ** The Notes window *)

Lemma append_assoc (s1 s2 s3 : string) : (s1 +:+ s2) +:+ s3 = s1 +:+ s2 +:+ s3.
Proof.
  induction s1 as [|a s1 IH]; [reflexivity|].
  change (String a ((s1 +:+ s2) +:+ s3) = String a (s1 +:+ s2 +:+ s3)).
  rewrite IH. reflexivity.
Qed.

(** C10. [append] with [newline] true leaves the old text, then the new
    text, then [os.linesep]; with [newline] false, the old text followed by
    the new text. *)
Theorem notes_append (linesep t0 t : string) :
  Notes.append linesep t true t0 = (Returned tt, t0 +:+ t +:+ linesep)
  ∧ Notes.append linesep t false t0 = (Returned tt, t0 +:+ t).
Proof.
  unfold Notes.append, Notes.text, Notes.set_text. py_unfold. simpl.
  split; [|reflexivity]. f_equal. apply append_assoc.
Qed.

(** ** The fit session *)

Section FitSession.
Import Builtins NLFit.

Variable get_str_reply : list lt_call -> string -> outcome string.
Variable evaluate_reply : list lt_call -> string -> pyval.
Variable tree_dict : Type.
Variable tree_reply : list lt_call -> string -> tree_dict.
Variable fromstring : string -> option element.
Variable parse_int : string -> option Z.

Lemma get_tree_name_store (s : session) :
  _get_tree_name s
  = (Returned (tree_name_of (me s)),
     if bool_decide (_tree_name (me s) = EmptyString)
     then set_me (set_tree_name (tree_name_of (me s)) (me s)) s
     else s).
Proof.
  unfold _get_tree_name, tree_name_of. py_unfold.
  destruct (bool_decide _); reflexivity.
Qed.

Lemma get_tree_name_calls (s : session) : calls (snd (_get_tree_name s)) = calls s.
Proof. rewrite get_tree_name_store. simpl. destruct (bool_decide _); reflexivity. Qed.

Lemma get_tree_name_ended (s : session) :
  _ended (me (snd (_get_tree_name s))) = _ended (me s).
Proof. rewrite get_tree_name_store. simpl. destruct (bool_decide _); reflexivity. Qed.

Lemma result_ended_store (s : session) :
  _ended (me s) = true →
  result tree_dict tree_reply s
  = (Returned (tree_reply (calls s) (tree_name_of (me s))),
     set_calls (calls s ++ [lt_tree_to_dict (tree_name_of (me s))])
       (snd (_get_tree_name s))).
Proof.
  intros H. unfold result, host, utils_lt_tree_to_dict, record. py_unfold. rewrite H. simpl.
  rewrite get_tree_name_store. simpl.
  destruct (bool_decide _); reflexivity.
Qed.

(** [result] leaves the session finalized. *)
Lemma result_finalizes (s : session) :
  _ended (me (snd (result tree_dict tree_reply s))) = true.
Proof.
  unfold result, host, utils_lt_tree_to_dict, record, po_LT_execute. py_unfold.
  destruct (_ended (me s)) eqn:E; simpl; rewrite get_tree_name_store; simpl;
    destruct (bool_decide _); simpl; try exact E; reflexivity.
Qed.

(** The first [result] of a session that is not finalized issues [nlend]. *)
Lemma result_first_calls (s : session) :
  _ended (me s) = false →
  calls (snd (result tree_dict tree_reply s))
  = calls s ++ [LT_execute "nlend"; lt_tree_to_dict (tree_name_of (me s))].
Proof.
  intros E.
  unfold result, host, utils_lt_tree_to_dict, record, po_LT_execute. py_unfold.
  rewrite E. simpl. rewrite get_tree_name_store. simpl.
  destruct (bool_decide _); simpl; rewrite <- app_assoc; reflexivity.
Qed.

(** C5, as amended. Once the results are finalized, neither operation
    issues [nlend] again: [report] raises [ValueError] and makes no call to
    the host; [result] does not raise, it skips [nlend], reads the tree
    again and returns its mapping, and the session stays finalized. *)
Theorem finalized_no_second_nlend (autoupdate : bool) (s : session) :
  _ended (me s) = true →
  report get_str_reply evaluate_reply autoupdate s
  = (Raised (ValueError "You must call report() before calling result()."), s)
  ∧ fst (result tree_dict tree_reply s)
    = Returned (tree_reply (calls s) (tree_name_of (me s)))
  ∧ calls (snd (result tree_dict tree_reply s))
    = calls s ++ [lt_tree_to_dict (tree_name_of (me s))]
  ∧ filter is_nlend (calls (snd (result tree_dict tree_reply s)))
    = filter is_nlend (calls s)
  ∧ _ended (me (snd (result tree_dict tree_reply s))) = true.
Proof.
  intros H. split; [|split; [|split; [|split]]].
  - unfold report. py_unfold. rewrite H. reflexivity.
  - rewrite result_ended_store by exact H. reflexivity.
  - rewrite result_ended_store by exact H. reflexivity.
  - rewrite result_ended_store by exact H. simpl.
    rewrite filter_app. simpl. apply app_nil_r.
  - apply result_finalizes.
Qed.

(** ** The matrix data of a fit *)

(** C9. For an integer [z] the command names matrix object 1 whatever [z]
    is; a string [z] is placed in the command as it is. *)
Theorem set_mdata_command (ms_range : string) (s : session) :
  (∀ z : Z,
     set_mdata ms_range (Index z) s = set_mdata ms_range (Index 1) s
     ∧ fst (set_mdata ms_range (Index z) s) = Returned tt
     ∧ calls (snd (set_mdata ms_range (Index z) s))
       = calls s ++ [LT_execute ("nlbeginm " +:+ (ms_range +:+ "!" +:+ "1") +:+ " "
                                 +:+ func (me s) +:+ " " +:+ tree_name_of (me s))])
  ∧ (∀ n : string,
     fst (set_mdata ms_range (Name n) s) = Returned tt
     ∧ calls (snd (set_mdata ms_range (Name n) s))
       = calls s ++ [LT_execute ("nlbeginm " +:+ (ms_range +:+ "!" +:+ n) +:+ " "
                                 +:+ func (me s) +:+ " " +:+ tree_name_of (me s))]).
Proof.
  split; intros x; (split; [try reflexivity|]); try split;
    unfold set_mdata, host, po_LT_execute, record; py_unfold;
    rewrite get_tree_name_store; simpl;
    try destruct (bool_decide (_tree_name (me s) = EmptyString)); reflexivity.
Qed.

(** ** Construction of a fit session *)

Lemma init_unknown_function (id_self : Z) (fn method : string) (l : list lt_call) :
  unknown_function get_str_reply fromstring l fn →
  __init__ get_str_reply fromstring parse_int id_self fn method l
  = (Raised (ValueError ("Invalid fitting function: " +:+ fn)),
     l ++ [LT_get_str (fdf_request fn)]).
Proof.
  intros H. unfold unknown_function in H.
  unfold __init__, po_LT_get_str, record, ET_fromstring. py_unfold.
  destruct (get_str_reply l _) as [text|e] eqn:E; [|reflexivity].
  rewrite (H text eq_refl). reflexivity.
Qed.

(** [__init__] up to the test of [method], on a complete description. *)
Lemma init_described (id_self : Z) (fn method : string) (l : list lt_call)
    (trfdf : element) :
  described_by get_str_reply fromstring l fn trfdf → complete parse_int trfdf →
  ∃ nd ni,
    __init__ get_str_reply fromstring parse_int id_self fn method l
    = (let built odr :=
         mkNLFit id_self EmptyString false fn trfdf (implicit_model trfdf) odr nd ni in
       if bool_decide (method = "auto") then Returned (built (implicit_model trfdf))
       else if bool_decide (method = "odr") then Returned (built true)
       else if bool_decide (method = "lm") then
         if implicit_model trfdf then
           Raised (ValueError ("Implicit function(" +:+ fn
                               +:+ ") supports odr fitting method only."))
         else Returned (built false)
       else Raised (ValueError ("Invalid fitting method: " +:+ method)),
       l ++ [LT_get_str (fdf_request fn)]).
Proof.
  intros (text & Hr & Hp) [[nd Hd] [ni Hi]]. exists nd, ni.
  unfold complete, count_of in *.
  unfold __init__, po_LT_get_str, record, ET_fromstring, _general_info, int_text,
    implicit_model.
  py_unfold. rewrite Hr. simpl. rewrite Hp. simpl.
  destruct (_func_section trfdf "GeneralInformation") as [sec|]; [|discriminate].
  simpl in *.
  destruct (find "NumberOfDependentVariables" sec) as [ed|]; [|discriminate].
  destruct (find "NumberOfIndependentVariables" sec) as [ei|]; [|discriminate].
  simpl in *.
  destruct (text_of ed) as [td|]; [|discriminate].
  destruct (text_of ei) as [ti|]; [|discriminate].
  simpl in *. rewrite Hd, Hi. simpl.
  destruct (find "FunctionModel" sec) as [fm|]; simpl;
    [destruct (bool_decide (text_of fm = Some "Implicit"))|];
    destruct (bool_decide (method = "auto")), (bool_decide (method = "odr")),
      (bool_decide (method = "lm")); reflexivity.
Qed.

(** C8, as amended. [__init__] raises [ValueError], and so returns no
    session, when the host reports the function as unknown, whatever the
    method. When the host answers with a description that carries both
    variable counts as numerals, [__init__] raises [ValueError] for a method
    that is none of [auto], [odr], [lm], and for [lm] on a function the
    description declares implicit; the message names the function or the
    method. *)
Theorem init_rejects (id_self : Z) (fn method : string) (l : list lt_call) :
  (unknown_function get_str_reply fromstring l fn →
     __init__ get_str_reply fromstring parse_int id_self fn method l
     = (Raised (ValueError ("Invalid fitting function: " +:+ fn)),
        l ++ [LT_get_str (fdf_request fn)]))
  ∧ (∀ trfdf, described_by get_str_reply fromstring l fn trfdf → complete parse_int trfdf →
       (method ≠ "auto" → method ≠ "odr" → method ≠ "lm" →
          __init__ get_str_reply fromstring parse_int id_self fn method l
          = (Raised (ValueError ("Invalid fitting method: " +:+ method)),
             l ++ [LT_get_str (fdf_request fn)]))
       ∧ (method = "lm" → implicit_model trfdf = true →
          __init__ get_str_reply fromstring parse_int id_self fn method l
          = (Raised (ValueError ("Implicit function(" +:+ fn
                                 +:+ ") supports odr fitting method only.")),
             l ++ [LT_get_str (fdf_request fn)]))).
Proof.
  split; [apply init_unknown_function|].
  intros trfdf Hd Hc.
  destruct (init_described id_self fn method l trfdf Hd Hc) as (nd & ni & ->).
  split.
  - intros H1 H2 H3. rewrite !bool_decide_eq_false_2 by assumption. reflexivity.
  - intros -> Hi. rewrite Hi. reflexivity.
Qed.

End FitSession.

(** ** The fit session run on the sample host *)

Section SampleHost.
Import Builtins NLFit Sample.

Lemma sample_session_built :
  __init__ sample_get_str sample_fromstring decimal 1 "Gauss" "auto" []
  = (Returned (me sample_session), calls sample_session).
Proof. vm_compute. reflexivity. Qed.

Lemma finalized_session_calls :
  calls finalized_session
  = [LT_get_str (fdf_request "Gauss"); LT_execute "nlfit "; LT_execute "nlend";
     lt_tree_to_dict "_PY_NLFIT_TREE_1"].
Proof. vm_compute. reflexivity. Qed.

Lemma finalized_no_second_nlend_witness :
  report sample_get_str sample_evaluate false finalized_session
  = (Raised (ValueError "You must call report() before calling result()."),
     finalized_session)
  ∧ filter is_nlend (calls (snd (result string sample_tree finalized_session)))
    = [LT_execute "nlend"].
Proof.
  destruct (finalized_no_second_nlend sample_get_str sample_evaluate string sample_tree
              false finalized_session) as (Hreport & _ & _ & Hnlend & _);
    [reflexivity|].
  split; [exact Hreport|]. rewrite Hnlend. reflexivity.
Defined.

(** C5, as stated, fails for [result]: called on a finalized session it
    returns the mapping and raises nothing. *)
Lemma result_twice_counterexample :
  _ended (me finalized_session) = true
  ∧ fst (result string sample_tree finalized_session) = Returned "_PY_NLFIT_TREE_1".
Proof. vm_compute. split; reflexivity. Qed.

Lemma init_rejects_witness :
  fst (__init__ sample_get_str sample_fromstring decimal 1 "NoSuch" "auto" [])
  = Raised (ValueError "Invalid fitting function: NoSuch")
  ∧ fst (__init__ sample_get_str sample_fromstring decimal 1 "Gauss" "fast" [])
    = Raised (ValueError "Invalid fitting method: fast")
  ∧ fst (__init__ sample_get_str sample_fromstring decimal 1 "Circle" "lm" [])
    = Raised (ValueError "Implicit function(Circle) supports odr fitting method only.").
Proof.
  split; [|split].
  - destruct (init_rejects sample_get_str sample_fromstring decimal 1 "NoSuch" "auto" [])
      as [H _].
    rewrite H; [reflexivity|]. intros text. vm_compute. intros [= <-]. reflexivity.
  - destruct (init_rejects sample_get_str sample_fromstring decimal 1 "Gauss" "fast" [])
      as [_ H].
    destruct (H explicit_fdf) as [H1 _].
    + exists "<Gauss/>". split; reflexivity.
    + split; eexists; vm_compute; reflexivity.
    + rewrite H1; [reflexivity | discriminate | discriminate | discriminate].
  - destruct (init_rejects sample_get_str sample_fromstring decimal 1 "Circle" "lm" [])
      as [_ H].
    destruct (H implicit_fdf) as [_ H2].
    + exists "<Circle/>". split; reflexivity.
    + split; eexists; vm_compute; reflexivity.
    + rewrite H2; reflexivity.
Defined.

(** C8, as stated, fails: when the description the host returns has no
    variable counts, a method that is none of the three, and [lm] for the
    implicit function, end in [AttributeError], before the method is
    looked at. *)
Lemma init_rejects_counterexample :
  implicit_model bare_fdf = true
  ∧ fst (__init__ bare_get_str bare_fromstring decimal 1 "Circle" "fast" [])
    = Raised AttributeError
  ∧ fst (__init__ bare_get_str bare_fromstring decimal 1 "Circle" "lm" [])
    = Raised AttributeError.
Proof. vm_compute. repeat split. Qed.

End SampleHost.

(** * Further properties of the code *)

(** ** The [APP] wrapper over sequences of operations *)

Section AppSequences.
Import Config AppRuns.

Variable OriginExt_has : string -> bool.
Variable host_reachable : bool.

Lemma Exit_store (r : bool) (s : app_state) :
  Exit r s =
  (Returned tt,
   match _app (self s) with
   | Some _ => mkAppState (mkAPP None (_first (self s))) (events s ++ [Ev_Exit r])
   | None => s
   end).
Proof.
  unfold Exit, emit, set_app. py_unfold. destruct s as [[[k|] f] ev]; reflexivity.
Qed.

(** The store [Attach] leaves: the instance held is exited, closing the
    host on the first call only, and a new one is asked for. *)
Lemma Attach_store (s : app_state) :
  snd (Attach host_reachable s) =
  let s1 := snd (Exit (negb (_first (self s)))
                   (mkAppState (mkAPP (_app (self s)) false) (events s))) in
  if host_reachable
  then mkAppState (mkAPP (Some ApplicationSI) false) (events s1 ++ [Ev_new ApplicationSI])
  else s1.
Proof.
  unfold Attach, new_app, emit, set_app, set_first. py_unfold.
  rewrite !Exit_store. destruct s as [[[k|] []] ev], host_reachable; reflexivity.
Qed.

Lemma count_snoc {A} (P : A → bool) (l : list A) (x : A) :
  length (filter P (l ++ [x])) = length (filter P l) + (if P x then 1 else 0).
Proof.
  rewrite filter_app, length_app. f_equal.
  destruct (P x) eqn:E.
  - rewrite filter_cons_True by (rewrite E; exact I). reflexivity.
  - rewrite filter_cons_False by (rewrite E; exact id). reflexivity.
Qed.

Lemma balanced_step (s : app_state) (o : app_op) :
  balanced s → balanced (app_step OriginExt_has host_reachable s o).
Proof.
  unfold balanced, held. intros H.
  destruct o as [name|r| |]; simpl.
  - destruct (OriginExt_has name) eqn:E.
    + rewrite getattr_module by exact E. exact H.
    + rewrite getattr_forwarded by exact E.
      destruct s as [[[k|] f] ev]; simpl in *; [exact H|].
      destruct host_reachable; simpl; [|exact H].
      change (ev ++ [Ev_new Application; Ev_LT_execute "sec -poc"])
        with (ev ++ [Ev_new Application] ++ [Ev_LT_execute "sec -poc"]).
      rewrite app_assoc, !count_snoc. simpl. lia.
  - rewrite Exit_store. destruct s as [[[k|] f] ev]; simpl in *; [|exact H].
    rewrite !count_snoc. simpl. lia.
  - rewrite Attach_store, Exit_store.
    destruct s as [[[k|] f] ev], host_reachable; simpl in *;
      rewrite ?count_snoc; simpl; lia.
  - unfold Detach. rewrite Exit_store. destruct s as [[[k|] f] ev]; simpl in *; [|exact H].
    rewrite !count_snoc. simpl. lia.
Qed.

(** X1. Whatever sequence of attribute reads, [Exit], [Attach] and [Detach]
    is made on [po], every application object created has been exited
    except the one still held, so at most one is open at any time. *)
Theorem app_objects_balanced (ops : list app_op) :
  let s := app_run OriginExt_has host_reachable ops fresh_state in
  balanced s ∧ held s ≤ 1.
Proof.
  intros s. split; [|unfold held; destruct (_app (self s)); lia].
  subst s. generalize fresh_state, (eq_refl : balanced fresh_state).
  induction ops as [|o ops IH]; intros s H; simpl; [exact H|].
  apply IH, balanced_step, H.
Qed.

Lemma closes_once_step (s : app_state) (o : app_op) :
  calls_Exit o = false → closes_once s →
  closes_once (app_step OriginExt_has host_reachable s o).
Proof.
  unfold closes_once. intros Ho H.
  destruct o as [name|r| |]; simpl; try discriminate.
  - destruct (OriginExt_has name) eqn:E.
    + rewrite getattr_module by exact E. exact H.
    + rewrite getattr_forwarded by exact E.
      destruct s as [[[k|] f] ev]; simpl in *; [exact H|].
      destruct host_reachable; simpl; [|exact H].
      change (ev ++ [Ev_new Application; Ev_LT_execute "sec -poc"])
        with (ev ++ [Ev_new Application] ++ [Ev_LT_execute "sec -poc"]).
      rewrite app_assoc, !count_snoc. simpl. lia.
  - rewrite Attach_store, Exit_store.
    destruct s as [[[k|] []] ev], host_reachable; simpl in *;
      rewrite ?count_snoc; simpl; lia.
  - unfold Detach. rewrite Exit_store. destruct s as [[[k|] f] ev]; simpl in *; [|exact H].
    rewrite !count_snoc. simpl. lia.
Qed.

Lemma first_step (s : app_state) (o : app_op) :
  _first (self (app_step OriginExt_has host_reachable s o))
  = _first (self s) && negb (is_CallAttach o).
Proof.
  destruct o as [name|r| |]; simpl.
  - destruct (OriginExt_has name) eqn:E.
    + rewrite getattr_module by exact E. rewrite andb_true_r. reflexivity.
    + rewrite getattr_forwarded by exact E.
      destruct s as [[[k|] f] ev], host_reachable; simpl; rewrite andb_true_r; reflexivity.
  - rewrite Exit_store. destruct s as [[[k|] f] ev]; simpl; rewrite andb_true_r; reflexivity.
  - rewrite Attach_store, Exit_store.
    destruct s as [[[k|] f] ev], host_reachable; simpl; rewrite andb_false_r; reflexivity.
  - unfold Detach. rewrite Exit_store.
    destruct s as [[[k|] f] ev]; simpl; rewrite andb_true_r; reflexivity.
Qed.

Lemma first_run (ops : list app_op) (s : app_state) :
  _first (self (app_run OriginExt_has host_reachable ops s))
  = _first (self s) && forallb (fun o => negb (is_CallAttach o)) ops.
Proof.
  revert s. induction ops as [|o ops IH]; intros s; simpl.
  - rewrite andb_true_r. reflexivity.
  - unfold app_run in *. simpl. rewrite IH, first_step, andb_assoc. reflexivity.
Qed.

(** A step other than a direct [Exit] adds a closing exit only if it is an
    [Attach] made while [_first] is set. *)
Lemma closings_step (s : app_state) (o : app_op) :
  calls_Exit o = false →
  closings (app_step OriginExt_has host_reachable s o) ≠ closings s →
  o = CallAttach ∧ _first (self s) = true.
Proof.
  unfold closings. intros Ho.
  destruct o as [name|r| |]; simpl; try discriminate.
  - destruct (OriginExt_has name) eqn:E.
    + rewrite getattr_module by exact E. intros H. contradiction.
    + rewrite getattr_forwarded by exact E.
      destruct s as [[[k|] f] ev]; simpl; [intros H; contradiction|].
      destruct host_reachable; simpl; [|intros H; contradiction].
      change (ev ++ [Ev_new Application; Ev_LT_execute "sec -poc"])
        with (ev ++ [Ev_new Application] ++ [Ev_LT_execute "sec -poc"]).
      rewrite app_assoc, !count_snoc. simpl. lia.
  - rewrite Attach_store, Exit_store.
    destruct s as [[[k|] []] ev], host_reachable; simpl;
      rewrite ?count_snoc; simpl; intros H; try (split; reflexivity); lia.
  - unfold Detach. rewrite Exit_store.
    destruct s as [[[k|] f] ev]; simpl; [|intros H; contradiction].
    rewrite !count_snoc. simpl. lia.
Qed.

(** X2. As long as [Exit] is not called directly, the host is closed (an
    exit with [releaseonly] false) at most once, and only by the first
    [Attach] of the sequence: an operation that adds a closing exit is an
    [Attach] that no [Attach] precedes. Every other exit only releases the
    host. *)
Theorem host_closed_at_most_once (ops : list app_op) :
  forallb (fun o => negb (calls_Exit o)) ops = true →
  closes_once (app_run OriginExt_has host_reachable ops fresh_state)
  ∧ closings (app_run OriginExt_has host_reachable ops fresh_state) ≤ 1
  ∧ (∀ pre o post, ops = pre ++ o :: post →
       closings (app_run OriginExt_has host_reachable (pre ++ [o]) fresh_state)
       ≠ closings (app_run OriginExt_has host_reachable pre fresh_state) →
       o = CallAttach ∧ forallb (fun o => negb (is_CallAttach o)) pre = true).
Proof.
  intros Hops.
  assert (closes_once (app_run OriginExt_has host_reachable ops fresh_state)) as H.
  { revert Hops. generalize fresh_state, (le_n 0 : closes_once fresh_state).
    induction ops as [|o ops IH]; intros s H Hops; simpl; [exact H|].
    simpl in Hops. apply andb_prop in Hops as [Ho Hops].
    apply IH; [|exact Hops]. apply closes_once_step; [|exact H].
    destruct (calls_Exit o); [discriminate | reflexivity]. }
  split; [exact H|]. split.
  - unfold closes_once in H. unfold closings. destruct (_first _); lia.
  - intros pre o post -> Hc.
    rewrite forallb_app in Hops. apply andb_prop in Hops as [_ Hops].
    simpl in Hops. apply andb_prop in Hops as [Ho _].
    unfold app_run in Hc. rewrite fold_left_app in Hc. simpl in Hc.
    apply closings_step in Hc as [-> Hf];
      [|destruct (calls_Exit o); [discriminate | reflexivity]].
    split; [reflexivity|].
    fold (app_run OriginExt_has host_reachable pre fresh_state) in Hf.
    rewrite first_run in Hf. exact Hf.
Qed.

(** X3. [Exit] made twice in a row does nothing the second time, and
    [Detach] is not final: the next read the OriginExt module cannot
    answer creates a new application object and waits for it. *)
Theorem exit_twice_and_reattach (r r' : bool) (name : string) (s : app_state) :
  Exit r' (snd (Exit r s)) = (Returned tt, snd (Exit r s))
  ∧ _app (self (snd (Detach s))) = None
  ∧ (OriginExt_has name = false → host_reachable = true →
     __getattr__ OriginExt_has host_reachable name (snd (Detach s))
     = (Returned (AppAttr Application name),
        mkAppState (mkAPP (Some Application) (_first (self s)))
          (events (snd (Detach s)) ++ [Ev_new Application; Ev_LT_execute "sec -poc"]))).
Proof.
  split; [|split].
  - rewrite !Exit_store. destruct s as [[[k|] f] ev]; reflexivity.
  - unfold Detach. rewrite Exit_store. destruct s as [[[k|] f] ev]; reflexivity.
  - intros Hn Hr. rewrite getattr_forwarded by exact Hn. rewrite Hr.
    unfold Detach. rewrite Exit_store. destruct s as [[[k|] f] ev]; reflexivity.
Qed.

End AppSequences.

Lemma host_closed_at_most_once_witness :
  AppRuns.closings
    (AppRuns.app_run Config.defines_DF true
       [AppRuns.Getattr "LT_execute"; AppRuns.CallAttach; AppRuns.CallDetach;
        AppRuns.CallAttach; AppRuns.CallDetach]
       Config.fresh_state) ≤ 1.
Proof.
  apply (host_closed_at_most_once Config.defines_DF true
           [AppRuns.Getattr "LT_execute"; AppRuns.CallAttach; AppRuns.CallDetach;
            AppRuns.CallAttach; AppRuns.CallDetach]).
  reflexivity.
Defined.

Lemma exit_twice_and_reattach_witness :
  Config.__getattr__ Config.defines_DF true "LT_execute"
    (snd (Config.Detach
            (Config.mkAppState (Config.mkAPP (Some Config.ApplicationSI) false) [])))
  = (Returned (Config.AppAttr Config.Application "LT_execute"),
     Config.mkAppState (Config.mkAPP (Some Config.Application) false)
       [Config.Ev_Exit true; Config.Ev_new Config.Application;
        Config.Ev_LT_execute "sec -poc"]).
Proof.
  apply (exit_twice_and_reattach Config.defines_DF true true true "LT_execute"
           (Config.mkAppState (Config.mkAPP (Some Config.ApplicationSI) false) []));
    reflexivity.
Defined.

(** ** More on the counters *)

Section Counters.
Import BaseObject.

(** X4. Once the exit flag is set no construction, finalisation or exit
    handler clears it. *)
Theorem exit_flag_never_clears (ops : list op) (s : process) :
  _EXIT s = true → _EXIT (run ops s) = true.
Proof.
  revert s. induction ops as [|o ops IH]; intros s H; simpl; [exact H|].
  apply IH, exit_flag_step, H.
Qed.

Lemma exit_flag_never_clears_witness :
  _EXIT (run [Construct (Some 7); Destroy 0; Construct None; AtExit]
           (run [AtExit] (init true))) = true.
Proof.
  apply (exit_flag_never_clears [Construct (Some 7); Destroy 0; Construct None; AtExit]
           (run [AtExit] (init true))).
  reflexivity.
Defined.

(** X5. In any state the process can reach, constructing a wrapper and
    finalising it at once, whether the construction succeeded or raised,
    gives back the count, the instances and their [obj] attributes as they
    were. *)
Theorem construct_destroy_restores (mode : bool) (ops : list op) (o : option handle) :
  let s := run ops (init mode) in
  let s' := run [Construct o; Destroy (fresh (objs s))] s in
  _OBJS_COUNT s' = _OBJS_COUNT s ∧ objs s' = objs s ∧ obj s' = obj s
  ∧ _EXIT s' = _EXIT s.
Proof.
  intros s s'. subst s'.
  destruct (counted_run ops (init mode) (counted_init mode)) as [_ Hl].
  fold s in Hl. generalize dependent s. intros s Hl.
  pose proof (is_fresh (objs s)) as Hf.
  assert (obj s !! fresh (objs s) = None) as Hnone.
  { apply not_elem_of_dom. unfold live in Hl. set_solver. }
  assert (({[fresh (objs s)]} ∪ objs s) ∖ {[fresh (objs s)]} = objs s) as Hobjs
    by set_solver.
  unfold run. simpl. rewrite destroy_store, construct_store.
  destruct s as [m ex c a O M L], o as [h|], m; simpl in *;
    (destruct (decide _) as [_|Hn]; [|exfalso; apply Hn; set_solver]);
    unfold after_del; simpl;
    replace (c + 1 - 1)%Z with c by lia;
    try (destruct (ex && (c =? 0)%Z); simpl);
    rewrite Hobjs, ?delete_insert_id, ?delete_id by assumption; repeat split.
Qed.

Import Shutdown.

Lemma running_step (s : process) (o : op) :
  is_AtExit o = false → running s → running (step s o).
Proof.
  intros Ho (Eo & Ee & Hl & Hc). pose proof (counted_step s o Hc) as Hc'.
  unfold running. rewrite step_oext.
  split; [exact Eo|]. split; [|split; [|exact Hc']].
  - destruct o as [r|id|]; simpl in *; try discriminate.
    + rewrite construct_store. destruct s as [[] ex c a O M L], r; exact Ee.
    + rewrite destroy_store. destruct (decide _); [|exact Ee].
      unfold after_del. destruct s as [[] ex c a O M L]; simpl in *; subst ex; reflexivity.
  - destruct o as [r|id|]; simpl in *; try discriminate.
    + rewrite construct_store. destruct s as [[] ex c a O M L], r; exact Hl.
    + rewrite destroy_store. destruct (decide _); [|exact Hl].
      unfold after_del. destruct s as [[] ex c a O M L]; simpl in *; subst ex; exact Hl.
Qed.

Lemma closing_start (s : process) : running s → closing (step s AtExit).
Proof.
  intros (Eo & Ee & Hl & Hc). pose proof (counted_step s AtExit Hc) as Hc'.
  unfold closing. rewrite step_oext. split; [exact Eo|].
  split; [apply exit_flag_set, Eo|]. split; [exact Hc'|].
  destruct Hc as [Hn _]. rewrite Eo in Hn.
  simpl. rewrite Eo, exit_handler_store. simpl.
  destruct (_OBJS_COUNT s =? 0)%Z eqn:E; simpl.
  - right. rewrite Hl. split; [reflexivity|].
    apply Z.eqb_eq in E. apply leibniz_equiv, size_empty_iff. lia.
  - left. split; [exact Hl|]. apply Z.eqb_neq in E. intros He.
    rewrite He, size_empty in Hn. contradiction.
Qed.

Lemma closing_step (s : process) (o : op) :
  is_Destroy o = true → closing s → closing (step s o).
Proof.
  intros Ho (Eo & Ee & Hc & Hlog). pose proof (counted_step s o Hc) as Hc'.
  destruct o as [r|id|]; simpl in Ho; try discriminate.
  unfold closing. rewrite step_oext. split; [exact Eo|].
  split; [apply exit_flag_step, Ee|]. split; [exact Hc'|].
  destruct Hc as [Hn _]. rewrite Eo in Hn.
  simpl. rewrite destroy_store. destruct (decide _) as [Hin|Hnin]; [|exact Hlog].
  destruct Hlog as [[Hl Hne]|[Hl He]]; [|rewrite He in Hin; set_solver].
  assert (size (objs s ∖ {[id]}) = size (objs s) - 1) as Hs.
  { rewrite size_difference by set_solver. rewrite size_singleton. reflexivity. }
  assert (0 < size (objs s)) as Hpos.
  { destruct (size (objs s)) eqn:E; [|lia]. apply size_empty_iff in E. set_solver. }
  unfold after_del. destruct s as [[] ex c a O M L]; simpl in *; try discriminate.
  subst ex L. simpl.
  destruct (c - 1 =? 0)%Z eqn:E; simpl.
  - right. split; [reflexivity|]. apply Z.eqb_eq in E.
    apply leibniz_equiv, size_empty_iff. lia.
  - left. split; [reflexivity|]. apply Z.eqb_neq in E. intros He.
    rewrite He, size_empty in Hs. lia.
Qed.

(** X20. With OriginExt, when the exit handler runs once and only
    finalisations follow it, [po.Detach()] is called at most once, and
    exactly once as soon as no wrapper instance is left. *)
Theorem shutdown_detaches_once (before after : list op) :
  forallb (fun o => negb (is_AtExit o)) before = true →
  forallb is_Destroy after = true →
  let s := run (before ++ AtExit :: after) (init true) in
  length (detach_log s) ≤ 1
  ∧ (objs s = ∅ → length (detach_log s) = 1)
  ∧ (objs s ≠ ∅ → detach_log s = []).
Proof.
  intros Hb Ha s.
  assert (running (run before (init true))) as Hrun.
  { assert (running (init true)) as H0
      by (split; [reflexivity|]; split; [reflexivity|]; split;
          [reflexivity | apply (counted_init true)]).
    revert Hb H0. generalize (init true).
    induction before as [|o ops IH]; intros s0 Hb H0; simpl; [exact H0|].
    simpl in Hb. apply andb_prop in Hb as [Ho Hb].
    apply IH; [exact Hb|]. apply running_step; [|exact H0].
    destruct (is_AtExit o); [discriminate | reflexivity]. }
  assert (closing s) as (_ & _ & _ & Hlog).
  { subst s. unfold run in *. rewrite fold_left_app. cbn [fold_left].
    pose proof (closing_start _ Hrun) as Hc. revert Ha Hc.
    generalize (step (fold_left step before (init true)) AtExit).
    induction after as [|o ops IH]; intros s0 Ha Hc; simpl; [exact Hc|].
    simpl in Ha. apply andb_prop in Ha as [Ho Ha].
    apply IH; [exact Ha|]. apply closing_step; assumption. }
  destruct Hlog as [[Hl Hne]|[Hl He]].
  - rewrite Hl. simpl. split; [lia|]. split; [intros H; contradiction | reflexivity].
  - rewrite Hl. split; [lia|]. split; [reflexivity | intros H; contradiction].
Qed.

Lemma shutdown_detaches_once_witness :
  length (detach_log
            (run ([Construct (Some 7); Construct (Some 8)]
                  ++ AtExit :: [Destroy 1; Destroy 0]) (init true))) = 1.
Proof.
  apply (shutdown_detaches_once [Construct (Some 7); Construct (Some 8)]
           [Destroy 1; Destroy 0]); [reflexivity | reflexivity |].
  vm_compute. reflexivity.
Defined.

End Counters.

(** ** File names and image data *)

Section FileNames.
Import Builtins Accessors Files.

(** X6. The quoting of a file name leaves the empty name and a name that
    begins with a double quote as they are, makes every other name begin
    with a double quote, and applied twice does what it does once. *)
Theorem quoted_idempotent (fname : string) :
  quoted (quoted fname) = quoted fname
  ∧ quoted EmptyString = EmptyString
  ∧ (fname ≠ EmptyString → ∃ rest, quoted fname = NLFit.dquote +:+ rest)
  ∧ (∀ rest, quoted (NLFit.dquote +:+ rest) = NLFit.dquote +:+ rest).
Proof.
  split; [|split; [reflexivity|split]].
  - destruct fname as [|c rest]; [reflexivity|].
    assert (quoted (String c rest)
            = if bool_decide (String c EmptyString = NLFit.dquote) then String c rest
              else NLFit.dquote +:+ String c rest +:+ NLFit.dquote) as -> by reflexivity.
    destruct (bool_decide _) eqn:E; [unfold quoted; rewrite E; reflexivity|].
    reflexivity.
  - intros Hne. destruct fname as [|c rest]; [congruence|]. unfold quoted.
    destruct (bool_decide _) eqn:E.
    + apply bool_decide_eq_true in E. exists rest.
      injection E as ->. reflexivity.
    + eexists. reflexivity.
  - intros rest. reflexivity.
Qed.

Lemma quoted_idempotent_witness :
  ∃ rest, quoted "D:/hello.html" = NLFit.dquote +:+ rest.
Proof. apply (quoted_idempotent "D:/hello.html"). discriminate. Defined.

Section AnyHost.
Variable host : Type.
Variable GetNumProp : string -> py host pyval.
Variable DoMethod : string -> string -> py host pyval.
Variable LT_execute : string -> py host unit.
Variable parse_int : string -> option Z.
Variable after_10_1 : bool.

(** X7. When the host answers NaN, [Notes.load] and [Notes.exp_html]
    return 0, their code for success, and [IPage.from_file] returns
    [False]. *)
Theorem nan_answers (fname : string) (askreplace : bool) (σ σ1 σ2 : host) :
  (DoMethod "load"
     (if after_10_1 then quoted fname +:+ ", " +:+ int_of_bool askreplace
      else quoted fname) σ = (Returned (PyFloat S754_nan), σ1) →
   load host DoMethod parse_int after_10_1 fname askreplace σ = (Returned 0%Z, σ1))
  ∧ (DoMethod "exporthtml" (quoted fname) σ = (Returned (PyFloat S754_nan), σ1) →
     exp_html host DoMethod parse_int fname σ = (Returned 0%Z, σ1))
  ∧ (LT_execute ("img.Load(" +:+ quoted fname +:+ ")") σ = (Returned tt, σ1) →
     GetNumProp "Width" σ1 = (Returned (PyFloat S754_nan), σ2) →
     from_file host GetNumProp LT_execute parse_int fname σ = (Returned false, σ2)).
Proof.
  split; [|split].
  - intros H. unfold load, method_int, method_float.
    rewrite (coerce_or_zero host parse_int _ σ σ1 _ H). reflexivity.
  - intros H. unfold exp_html, method_int, method_float.
    rewrite (coerce_or_zero host parse_int _ σ σ1 _ H). reflexivity.
  - intros H1 H2. unfold from_file, get_int, get_float. py_unfold.
    rewrite H1, H2. reflexivity.
Qed.

End AnyHost.

Lemma nan_answers_witness :
  exp_html unit (fun _ _ => constant_host (PyFloat S754_nan) EmptyString)
    (fun _ => None) "D:/hello.html" tt = (Returned 0%Z, tt)
  ∧ from_file unit (constant_host (PyFloat S754_nan)) (fun _ => mret tt)
      (fun _ => None) "D:/flower.jpg" tt = (Returned false, tt).
Proof.
  pose proof (nan_answers unit (constant_host (PyFloat S754_nan))
                (fun _ _ => constant_host (PyFloat S754_nan) EmptyString)
                (fun _ => mret tt) (fun _ => None) true) as H.
  split.
  - apply (H "D:/hello.html" false tt tt tt). reflexivity.
  - apply (H "D:/flower.jpg" false tt tt tt); reflexivity.
Defined.

Import TypeCodes.

Lemma to_np_dtype_last (c : DF) (ndf : Z) :
  to_np_dtype c ndf
  = dict_get ndf
      [(DF_LONG c, int64); (DF_COMPLEX c, complex128); (DF_ULONG c, uint32);
       (DF_USHORT c, uint16); (DF_BYTE c, uint8); (DF_CHAR c, int8);
       (DF_LONG c, int32); (DF_SHORT c, int16); (DF_FLOAT c, float32);
       (DF_DOUBLE c, float64)].
Proof. unfold to_np_dtype. apply (decode_last c ndf). Qed.

(** X8. The subscript [orgdtype_to_npdtype[ndf]] of [to_np] and [to_np2d]
    raises [KeyError] exactly when the code of the image data is none of
    the nine [DF_*] codes, and it never gives [np.int32]: data stored as
    [DF_LONG] is read as [np.int64]. *)
Theorem to_np_dtype_defined (c : DF) (ndf : Z) :
  (to_np_dtype c ndf = None ↔ ndf ∉ codes c)
  ∧ to_np_dtype c ndf ≠ Some int32
  ∧ to_np_dtype c (DF_LONG c) = Some int64.
Proof.
  rewrite !to_np_dtype_last. unfold codes. simpl. split; [|split].
  - split.
    + intros H Hin. rewrite !elem_of_cons, elem_of_nil in Hin.
      repeat (destruct (decide _) as [?|?]; [discriminate|]).
      intuition congruence.
    + intros Hnin. rewrite !not_elem_of_cons in Hnin.
      repeat (destruct (decide _) as [?|?]; [exfalso; intuition congruence|]).
      reflexivity.
  - repeat (destruct (decide _) as [?|?]; [try discriminate|]);
      try discriminate; congruence.
  - destruct (decide _); [reflexivity | congruence].
Qed.

End FileNames.

(** ** Data connectors and sheet shapes *)

Section SheetFacts.
Import Sheets.

Variable get_file_ext : string -> string.
Variable imp_result : Type.
Variable imp_reply : list dc_call -> imp_result.

(** X9. [from_file] with a connector name uses that connector whatever the
    extension of the file; without one it takes [csv] for the four text
    extensions and [excel] for the two Excel ones, and for any other
    extension it raises [ValueError] before a connector is made. *)
Theorem connector_choice (fname : string) (keep_DC : bool) (dctype sel : string)
    (sparks : bool) (l : list dc_call) :
  let ext := get_file_ext fname in
  let r := from_file get_file_ext imp_result imp_reply fname keep_DC dctype sel sparks l in
  (dctype ≠ EmptyString →
     snd r = l ++ [Connector dctype keep_DC; imp fname sel sparks])
  ∧ (dctype = EmptyString → ext ∈ [".csv"; ".asc"; ".txt"; ".dat"] →
     snd r = l ++ [Connector "csv" keep_DC; imp fname sel sparks])
  ∧ (dctype = EmptyString → ext ∈ [".xls"; ".xlsx"] →
     snd r = l ++ [Connector "excel" keep_DC; imp fname sel sparks])
  ∧ (dctype = EmptyString →
     ext ∉ [".csv"; ".asc"; ".txt"; ".dat"; ".xls"; ".xlsx"] →
     r = (Raised (ValueError "file type not supported, must be text or Excel files"), l)).
Proof.
  intros ext r. subst r. unfold from_file, _DC_from_ext. fold ext. clearbody ext.
  py_unfold. split; [|split; [|split]].
  - intros H. rewrite bool_decide_eq_false_2 by exact H. simpl.
    rewrite <- app_assoc. reflexivity.
  - intros -> H. rewrite (bool_decide_eq_true_2 _ H). simpl.
    rewrite <- app_assoc. reflexivity.
  - intros -> H.
    assert (ext ∉ [".csv"; ".asc"; ".txt"; ".dat"]) as Hn.
    { rewrite !elem_of_cons, elem_of_nil in H.
      destruct H as [->|[->|[]]]; rewrite !not_elem_of_cons;
        repeat split; try discriminate; apply not_elem_of_nil. }
    rewrite (bool_decide_eq_false_2 _ Hn), (bool_decide_eq_true_2 _ H). simpl.
    rewrite <- app_assoc. reflexivity.
  - intros -> H. rewrite !not_elem_of_cons in H.
    assert (ext ∉ [".csv"; ".asc"; ".txt"; ".dat"]) as H1
      by (rewrite !not_elem_of_cons; intuition).
    assert (ext ∉ [".xls"; ".xlsx"]) as H2 by (rewrite !not_elem_of_cons; intuition).
    rewrite (bool_decide_eq_false_2 _ H1), (bool_decide_eq_false_2 _ H2). reflexivity.
Qed.

End SheetFacts.

Lemma connector_choice_witness :
  snd (Sheets.from_file (fun _ => ".h5") unit (fun _ => tt)
         "data.h5" true "HDF" EmptyString false [])
  = [Sheets.Connector "HDF" true; Sheets.imp "data.h5" EmptyString false]
  ∧ Sheets.from_file (fun _ => ".h5") unit (fun _ => tt)
      "data.h5" true EmptyString EmptyString false []
    = (Raised (ValueError "file type not supported, must be text or Excel files"), []).
Proof.
  pose proof (connector_choice (fun _ => ".h5") unit (fun _ => tt)) as H.
  split.
  - apply (H "data.h5" true "HDF" EmptyString false []). discriminate.
  - apply (H "data.h5" true EmptyString EmptyString false []); [reflexivity|].
    rewrite !not_elem_of_cons. repeat split; try discriminate. apply not_elem_of_nil.
Defined.

Section ShapeFacts.
Import Sheets.

Variable rows_reply cols_reply : list sheet_call -> Z.

(** X10. The setter of [shape] raises [ValueError] without a call to the
    sheet for a value that is not a pair, and on a matrix sheet unless both
    counts are positive; on a worksheet it sets the columns, then the rows,
    each only when positive. Whatever the value, no call made hands a count
    that is not positive to the sheet. *)
Theorem set_shape_calls (is_matrix : bool) (val : list Z) (l : list sheet_call) :
  let r := set_shape rows_reply cols_reply is_matrix val l in
  (length val ≠ 2 → r = (Raised (ValueError "must set by rows, cols"), l))
  ∧ (∀ rows cols, val = [rows; cols] → is_matrix = true →
       ((rows ≤ 0 ∨ cols ≤ 0)%Z →
          r = (Raised (ValueError
                         "setting matrix sheet shape must provde both rows and cols"), l))
       ∧ ((0 < rows ∧ 0 < cols)%Z →
          snd r = l ++ [SetShape rows cols; GetRowCount; GetColCount]))
  ∧ (∀ rows cols, val = [rows; cols] → is_matrix = false →
       snd r = l ++ (if (0 <? cols)%Z then [SetColCount cols] else [])
                 ++ (if (0 <? rows)%Z then [SetRowCount rows] else [])
                 ++ [GetRowCount; GetColCount])
  ∧ (∃ added, snd r = l ++ added
              ∧ Forall (fun c => Forall (fun z => (0 < z)%Z) (sent_sizes c)) added).
Proof.
  intros r. subst r. unfold set_shape, shape, call. py_unfold.
  split; [|split; [|split]].
  - intros H. destruct val as [|a [|b [|c v]]]; simpl in H; try reflexivity; lia.
  - intros rows cols -> ->. split.
    + intros H. destruct (cols <=? 0)%Z eqn:Ec; [reflexivity|].
      destruct (rows <=? 0)%Z eqn:Er; [reflexivity|]. lia.
    + intros [Hr Hc]. destruct (cols <=? 0)%Z eqn:Ec; [lia|].
      destruct (rows <=? 0)%Z eqn:Er; [lia|]. simpl.
      rewrite <- !app_assoc. reflexivity.
  - intros rows cols -> ->.
    destruct (0 <? cols)%Z, (0 <? rows)%Z; simpl; rewrite <- ?app_assoc; reflexivity.
  - destruct val as [|rows [|cols [|c v]]]; try (exists []; rewrite app_nil_r; split;
      [reflexivity | constructor]).
    destruct is_matrix.
    + destruct (cols <=? 0)%Z eqn:Ec; [|destruct (rows <=? 0)%Z eqn:Er]; simpl;
        try (exists []; rewrite app_nil_r; split; [reflexivity | constructor]).
      exists [SetShape rows cols; GetRowCount; GetColCount].
      rewrite <- !app_assoc. split; [reflexivity|].
      repeat constructor; lia.
    + destruct (0 <? cols)%Z eqn:Ec, (0 <? rows)%Z eqn:Er; simpl;
        rewrite <- ?app_assoc; eexists; (split; [reflexivity|]);
        repeat constructor; lia.
Qed.

End ShapeFacts.

Lemma set_shape_calls_witness :
  snd (Sheets.set_shape (fun _ => 32%Z) (fun _ => 3%Z) false [0; 3]%Z [])
  = [Sheets.SetColCount 3; Sheets.GetRowCount; Sheets.GetColCount]
  ∧ Sheets.set_shape (fun _ => 32%Z) (fun _ => 3%Z) true [0; 3]%Z []
    = (Raised (ValueError "setting matrix sheet shape must provde both rows and cols"), []).
Proof.
  pose proof (set_shape_calls (fun _ => 32%Z) (fun _ => 3%Z)) as H.
  split.
  - destruct (H false [0; 3]%Z []) as (_ & _ & Hw & _). apply (Hw 0%Z 3%Z); reflexivity.
  - destruct (H true [0; 3]%Z []) as (_ & Hm & _).
    apply (Hm 0%Z 3%Z); [reflexivity | reflexivity | lia].
Defined.

(** ** Data, parameters and bounds of a fit session *)

Section SessionMethods.
Import Builtins NLFit NLFitParams.

Lemma tree_name_of_named (f : NLFit) : tree_name_of (named f) = tree_name_of f.
Proof.
  unfold named, tree_name_of. destruct (bool_decide (_tree_name f = EmptyString)) eqn:E.
  - simpl. reflexivity.
  - rewrite E. reflexivity.
Qed.

Lemma named_named (f : NLFit) : named (named f) = named f.
Proof.
  unfold named at 1. destruct (bool_decide (_tree_name (named f) = EmptyString)) eqn:E;
    [|reflexivity].
  unfold named, tree_name_of in *.
  destruct (bool_decide (_tree_name f = EmptyString)) eqn:E'.
  - simpl in E. discriminate E.
  - rewrite E in E'. discriminate.
Qed.

Lemma get_tree_name_named (s : session) :
  _get_tree_name s = (Returned (tree_name_of (me s)), set_me (named (me s)) s).
Proof.
  rewrite get_tree_name_store. unfold named.
  destruct (bool_decide _); [reflexivity|]. destruct s; reflexivity.
Qed.

Lemma set_store (property : string) (v : value) (s : session) :
  _set property v s
  = (Returned tt, mkSession (named (me s)) (calls s ++ [assignment (me s) property v])).
Proof.
  unfold _set, host, po_LT_execute, record, assignment. py_unfold.
  rewrite get_tree_name_named. reflexivity.
Qed.

(** The store a method leaves, and that it adds commands. *)
Lemma invoke_store (m : method) (s : session) :
  ∃ added,
    invoke m s = (Returned tt, mkSession (touched m (me s)) (calls s ++ added))
    ∧ added ≠ [].
Proof.
  destruct m as [rng z|r z|rg|p v|p v|p c v|p c v| |iter]; unfold touched; simpl.
  - unfold set_data, reset_ended, host, po_LT_execute, record. py_unfold.
    rewrite get_tree_name_named. simpl. eexists. split; [reflexivity | discriminate].
  - unfold set_mdata, host, po_LT_execute, record. py_unfold.
    rewrite get_tree_name_named. simpl. eexists. split; [reflexivity | discriminate].
  - unfold set_range, reset_ended, host, po_LT_execute, record. py_unfold.
    rewrite get_tree_name_named. simpl. eexists. split; [reflexivity | discriminate].
  - unfold fix_param. py_unfold. destruct v; rewrite !set_store; simpl;
      rewrite ?set_store; simpl;
      rewrite ?named_named, ?tree_name_of_named, <- ?app_assoc;
      (eexists; split; [reflexivity | discriminate]).
  - unfold set_param. rewrite set_store. eexists. split; [reflexivity | discriminate].
  - unfold set_lbound, _set_bound. py_unfold. rewrite set_store. simpl.
    destruct (negb _); simpl; rewrite ?set_store; simpl;
      destruct (truthy v); simpl; rewrite ?set_store; simpl;
      rewrite ?named_named, ?tree_name_of_named, <- ?app_assoc;
      (eexists; split; [reflexivity | discriminate]).
  - unfold set_ubound, _set_bound. py_unfold. rewrite set_store. simpl.
    destruct (negb _); simpl; rewrite ?set_store; simpl;
      destruct (truthy v); simpl; rewrite ?set_store; simpl;
      rewrite ?named_named, ?tree_name_of_named, <- ?app_assoc;
      (eexists; split; [reflexivity | discriminate]).
  - unfold param_box, host, po_LT_execute, record. py_unfold. simpl.
    destruct s. eexists. split; [reflexivity | discriminate].
  - unfold fit, host, po_LT_execute, record. py_unfold. simpl.
    destruct s. eexists. split; [reflexivity | discriminate].
Qed.

Lemma touched_keeps (m : method) (f : NLFit) :
  tree_name_of (touched m f) = tree_name_of f
  ∧ ident (touched m f) = ident f ∧ func (touched m f) = func f
  ∧ _odr (touched m f) = _odr f ∧ _implicit (touched m f) = _implicit f
  ∧ _ended (touched m f) = (if begins m then false else _ended f).
Proof.
  pose proof (tree_name_of_named f) as Hn.
  assert (∀ g, tree_name_of (set_ended false g) = tree_name_of g) as He by reflexivity.
  unfold named in *.
  destruct m; unfold touched, named; simpl;
    try destruct (bool_decide (_tree_name f = EmptyString));
    rewrite ?He, ?Hn; repeat split.
Qed.

(** X11. No sequence of data, parameter, bound, dialog and iteration
    methods changes the tree the commands of a session name, its function
    or its fitting method, and none of them finalizes the session: at the
    end it is finalized only if it was and no method began a fit anew. The
    commands already issued stay, and new ones follow them. *)
Theorem methods_keep_session (ms : list method) (s : session) :
  let s' := invoke_all ms s in
  tree_name_of (me s') = tree_name_of (me s)
  ∧ ident (me s') = ident (me s) ∧ func (me s') = func (me s)
  ∧ _odr (me s') = _odr (me s) ∧ _implicit (me s') = _implicit (me s)
  ∧ _ended (me s') = (if existsb begins ms then false else _ended (me s))
  ∧ (∃ added, calls s' = calls s ++ added ∧ length ms ≤ length added).
Proof.
  revert s. induction ms as [|m ms IH]; intros s; simpl.
  - repeat split. exists []. rewrite app_nil_r. split; [reflexivity | simpl; lia].
  - destruct (invoke_store m s) as (added & Hs & Hne).
    specialize (IH (snd (invoke m s))). simpl in IH.
    unfold invoke_all in *. simpl. rewrite Hs in *. simpl in *.
    destruct IH as (H1 & H2 & H3 & H4 & H5 & H6 & added' & H7 & H8).
    destruct (touched_keeps m (me s)) as (T1 & T2 & T3 & T4 & T5 & T6).
    rewrite H1, H2, H3, H4, H5, H6, T1, T2, T3, T4, T5, T6.
    repeat split.
    + destruct (begins m), (existsb begins ms); reflexivity.
    + exists (added ++ added'). rewrite H7, <- app_assoc. split; [reflexivity|].
      rewrite length_app. destruct added; [congruence | simpl; lia].
Qed.

Variable get_str_reply : list lt_call -> string -> outcome string.
Variable evaluate_reply : list lt_call -> string -> pyval.
Variable tree_dict : Type.
Variable tree_reply : list lt_call -> string -> tree_dict.
Variable fromstring : string -> option element.
Variable parse_int : string -> option Z.

(** The calls [report] adds to a session that is not finalized: the
    replacement of [@NLFS], the [nlend] command, the restoration of [@NLFS]
    and the reads of the two range strings. *)
Lemma report_open (autoupdate : bool) (s : session) :
  _ended (me s) = false →
  let s' := snd (report get_str_reply evaluate_reply autoupdate s) in
  (∃ rest,
     calls s'
     = calls s
       ++ [LT_evaluate "@NLFS"; LT_set_var "@NLFS" (PyInt 0);
           LT_execute (if autoupdate then "nlend 1 1" else "nlend 1");
           LT_set_var "@NLFS" (evaluate_reply (calls s) "@NLFS")]
       ++ rest)
  ∧ _ended (me s') = true.
Proof using get_str_reply evaluate_reply.
  clear tree_dict tree_reply fromstring parse_int.
  intros E. unfold report, host, po_LT_evaluate, po_LT_set_var, po_LT_execute,
    po_LT_get_str, record. py_unfold. rewrite E. simpl.
  repeat match goal with
         | |- context [get_str_reply ?l ?n] => destruct (get_str_reply l n); simpl
         end;
    (split; [|reflexivity]); rewrite <- ?app_assoc; simpl;
    eexists; reflexivity.
Qed.

(** X12. A method that begins a fit ([set_data], [set_mdata], [set_range])
    reopens a session, finalized or not: it leaves the session not
    finalized, and the calls [report] then adds to those already made
    start with the replacement of [@NLFS], its [nlend] command and the
    restoration of [@NLFS], while the calls [result] adds are [nlend] and
    the reading of the tree; each leaves the session finalized. *)
Theorem begin_reopens (m : method) (autoupdate : bool) (s : session) :
  begins m = true →
  let s1 := snd (invoke m s) in
  _ended (me s1) = false
  ∧ (∃ rest,
       calls (snd (report get_str_reply evaluate_reply autoupdate s1))
       = calls s1
         ++ [LT_evaluate "@NLFS"; LT_set_var "@NLFS" (PyInt 0);
             LT_execute (if autoupdate then "nlend 1 1" else "nlend 1");
             LT_set_var "@NLFS" (evaluate_reply (calls s1) "@NLFS")]
         ++ rest)
  ∧ _ended (me (snd (report get_str_reply evaluate_reply autoupdate s1))) = true
  ∧ calls (snd (result tree_dict tree_reply s1))
    = calls s1 ++ [LT_execute "nlend"; lt_tree_to_dict (tree_name_of (me s1))]
  ∧ _ended (me (snd (result tree_dict tree_reply s1))) = true.
Proof using get_str_reply evaluate_reply tree_dict tree_reply.
  intros Hb s1.
  assert (_ended (me s1) = false) as E.
  { subst s1. destruct (invoke_store m s) as (added & -> & _). simpl.
    destruct (touched_keeps m (me s)) as (_ & _ & _ & _ & _ & ->). rewrite Hb. reflexivity. }
  split; [exact E|].
  destruct (report_open autoupdate s1 E) as [H1 H2].
  split; [exact H1|]. split; [exact H2|]. split.
  - apply (result_first_calls tree_dict tree_reply s1 E).
  - apply result_finalizes.
Qed.

(** X13. A session [__init__] returns is not finalized, has no tree name
    yet, was made with one of the three methods and uses orthogonal
    distance regression whenever the function is implicit; so [set_range]
    on it begins an implicit function with [nlbegino] or [nlbeginor]. *)
Theorem init_returns (id_self : Z) (fn method : string) (l l' : list lt_call) (f : NLFit)
    (rg : string) :
  __init__ get_str_reply fromstring parse_int id_self fn method l = (Returned f, l') →
  l' = l ++ [LT_get_str (fdf_request fn)]
  ∧ ident f = id_self ∧ func f = fn ∧ _tree_name f = EmptyString ∧ _ended f = false
  ∧ (method = "auto" ∨ method = "odr" ∨ method = "lm")
  ∧ (_implicit f = true → _odr f = true)
  ∧ (_implicit f = true →
     ∃ xf, (xf = "nlbegino" ∨ xf = "nlbeginor")
           ∧ calls (snd (set_range rg (mkSession f l')))
             = l' ++ [LT_execute (xf +:+ " " +:+ rg +:+ " " +:+ fn +:+ " "
                                  +:+ "_PY_NLFIT_TREE_" +:+ pretty id_self)]).
Proof using get_str_reply fromstring parse_int.
  clear evaluate_reply tree_dict tree_reply.
  intros H.
  assert (l' = l ++ [LT_get_str (fdf_request fn)]
          ∧ ident f = id_self ∧ func f = fn ∧ _tree_name f = EmptyString
          ∧ _ended f = false
          ∧ (method = "auto" ∨ method = "odr" ∨ method = "lm")
          ∧ (_implicit f = true → _odr f = true)) as Hinv.
  { revert H. unfold __init__, po_LT_get_str, record, ET_fromstring, _general_info,
      int_text. py_unfold.
    destruct (get_str_reply l (fdf_request fn)) as [text|]; simpl; [|discriminate].
    destruct (fromstring text) as [trfdf|]; simpl; [|discriminate].
    destruct (_func_section trfdf "GeneralInformation") as [sec|]; simpl; [|discriminate].
    destruct (find "NumberOfDependentVariables" sec) as [ed|]; simpl; [|discriminate].
    destruct (text_of ed) as [td|]; simpl; [|discriminate].
    destruct (parse_int td) as [nd|]; simpl; [|discriminate].
    destruct (find "NumberOfIndependentVariables" sec) as [ei|]; simpl; [|discriminate].
    destruct (text_of ei) as [ti|]; simpl; [|discriminate].
    destruct (parse_int ti) as [ni|]; simpl; [|discriminate].
    destruct (bool_decide (method = "auto")) eqn:Ea;
      [|destruct (bool_decide (method = "odr")) eqn:Eo;
        [|destruct (bool_decide (method = "lm")) eqn:El]];
      try (match goal with |- context [if ?b then _ else _] => destruct b eqn:Ei end);
      intros [= <- <-]; simpl;
      try apply bool_decide_eq_true in Ea; try apply bool_decide_eq_true in Eo;
      try apply bool_decide_eq_true in El;
      repeat split; try tauto; try discriminate; try (rewrite Ei; discriminate). }
  destruct Hinv as (H1 & H2 & H3 & H4 & H5 & H6 & H7).
  repeat (split; [assumption|]).
  intros Hi.
  exists (range_word f). split.
  - unfold range_word. rewrite (H7 Hi), Hi. simpl.
    destruct (_numIndeps f =? 2)%Z; simpl; tauto.
  - unfold set_range, reset_ended, host, po_LT_execute, record. py_unfold.
    rewrite get_tree_name_named. simpl.
    unfold named, tree_name_of. rewrite H4, <- H2, <- H3. reflexivity.
Qed.

(** X14. [fix_param] given a boolean sends one command, [f_p=1] for
    [True] and [f_p=0] for [False], and never a value; given anything else,
    the integer 0 included, it assigns the value and then fixes the
    parameter. *)
Theorem fix_param_commands (p : string) (val : value) (s : session) :
  fst (fix_param p val s) = Returned tt
  ∧ calls (snd (fix_param p val s))
    = calls s ++ match val with
                 | VBool b => [assignment (me s) ("f_" +:+ p) (VInt (if b then 1 else 0))]
                 | _ => [assignment (me s) p val; assignment (me s) ("f_" +:+ p) (VInt 1)]
                 end.
Proof using Type.
  unfold fix_param. py_unfold.
  destruct val; rewrite !set_store; simpl; rewrite ?set_store; simpl;
    unfold assignment; rewrite ?tree_name_of_named, <- ?app_assoc; split; reflexivity.
Qed.

Lemma set_bound_commands (lu p ctrl : string) (val : value) (ctrlonx ctrlon : string)
    (s : session) :
  calls (snd (_set_bound lu p ctrl val ctrlonx ctrlon s))
  = calls s
    ++ [assignment (me s) (lu +:+ "bon_" +:+ p)
          (VInt (if (bound_on ctrl ctrlonx ctrlon =? 0)%Z then 0 else 1))]
    ++ (if (bound_on ctrl ctrlonx ctrlon =? 0)%Z then []
        else [assignment (me s) (lu +:+ "bx_" +:+ p)
                (VInt (if (bound_on ctrl ctrlonx ctrlon =? 1)%Z then 1 else 0))])
    ++ (if truthy val then [assignment (me s) (lu +:+ "b_" +:+ p) val] else []).
Proof using Type.
  unfold _set_bound. py_unfold. rewrite set_store. simpl.
  destruct (bound_on ctrl ctrlonx ctrlon =? 0)%Z; simpl; rewrite ?set_store; simpl;
    destruct (truthy val); simpl; rewrite ?set_store; simpl;
    unfold assignment; rewrite ?named_named, ?tree_name_of_named, <- ?app_assoc;
    reflexivity.
Qed.

(** X15. [set_lbound] switches the bound on for [>] and [>=] only, marking
    it exclusive for [>]; any other sign, the empty one included, switches
    it off. The bound value is sent only when it is true as a condition, so
    the integer 0, the empty string and [None] are not sent. *)
Theorem lbound_commands (p ctrl : string) (val : value) (s : session) :
  calls (snd (set_lbound p ctrl val s))
  = calls s
    ++ [assignment (me s) ("lbon_" +:+ p)
          (VInt (if bool_decide (ctrl = ">") || bool_decide (ctrl = ">=") then 1 else 0))]
    ++ (if bool_decide (ctrl = ">") then [assignment (me s) ("lbx_" +:+ p) (VInt 1)]
        else if bool_decide (ctrl = ">=") then [assignment (me s) ("lbx_" +:+ p) (VInt 0)]
        else [])
    ++ (match val with
        | VInt 0 | VNone | VBool false | VStr EmptyString => []
        | _ => [assignment (me s) ("lb_" +:+ p) val]
        end).
Proof using Type.
  unfold set_lbound. rewrite set_bound_commands. unfold bound_on.
  assert ((if truthy val then [assignment (me s) ("l" +:+ "b_" +:+ p) val] else [])
          = match val with
            | VInt 0 | VNone | VBool false | VStr EmptyString => []
            | _ => [assignment (me s) ("lb_" +:+ p) val]
            end) as -> by (destruct val as [[]|[]|[]|]; reflexivity).
  destruct (bool_decide (ctrl = EmptyString)) eqn:E0.
  - apply bool_decide_eq_true in E0. subst ctrl. reflexivity.
  - destruct (bool_decide (ctrl = ">")) eqn:E1; [reflexivity|].
    destruct (bool_decide (ctrl = ">=")) eqn:E2; reflexivity.
Qed.

End SessionMethods.

Lemma begin_reopens_witness :
  let s1 := snd (NLFitParams.invoke (NLFitParams.M_set_range "[Book1]Sheet1!(A,B)")
                   Sample.finalized_session) in
  NLFit.calls (snd (NLFit.result string Sample.sample_tree s1))
  = NLFit.calls s1
    ++ [NLFit.LT_execute "nlend"; NLFit.lt_tree_to_dict "_PY_NLFIT_TREE_1"].
Proof.
  apply (begin_reopens Sample.sample_get_str Sample.sample_evaluate string
           Sample.sample_tree (NLFitParams.M_set_range "[Book1]Sheet1!(A,B)") false
           Sample.finalized_session).
  reflexivity.
Defined.

Lemma init_returns_witness :
  ∃ xf, (xf = "nlbegino" ∨ xf = "nlbeginor")
        ∧ NLFit.calls
            (snd (NLFitParams.set_range "[Graph1]1!1"
                    (NLFit.mkSession
                       (NLFit.mkNLFit 1 EmptyString false "Circle" Sample.implicit_fdf
                          true true 1 1)
                       [NLFit.LT_get_str (NLFit.fdf_request "Circle")])))
          = [NLFit.LT_get_str (NLFit.fdf_request "Circle")]
            ++ [NLFit.LT_execute (xf +:+ " [Graph1]1!1 Circle _PY_NLFIT_TREE_1")].
Proof.
  apply (init_returns Sample.sample_get_str Sample.sample_fromstring Sample.decimal
           1 "Circle" "auto" [] [NLFit.LT_get_str (NLFit.fdf_request "Circle")]
           (NLFit.mkNLFit 1 EmptyString false "Circle" Sample.implicit_fdf true true 1 1)
           "[Graph1]1!1").
  - vm_compute. reflexivity.
  - reflexivity.
Defined.

(** ** The linear fit *)

Section LinearFitFacts.
Import Builtins NLFit NLFitParams LinearFit.

Variable get_str_reply : list lt_call -> string -> outcome string.
Variable evaluate_reply : list lt_call -> string -> pyval.
Variable tree_dict : Type.
Variable tree_reply : list lt_call -> string -> tree_dict.

Lemma land_low_bits (band : Z) :
  Z.land (band mod 4) 1 = Z.land band 1 ∧ Z.land (band mod 4) 2 = Z.land band 2.
Proof.
  change 4%Z with (2 ^ 2)%Z. rewrite <- Z.land_ones by lia.
  rewrite <- !Z.land_assoc. split; reflexivity.
Qed.

(** X16. [LinearFit.report] looks at the two low bits of [band] only: bit 0
    asks for the confidence band and bit 1 for the prediction band, and any
    [band], negative ones included, does what its remainder modulo 4
    does. *)
Theorem report_band_bits (band : Z) (s : lr_session) :
  report get_str_reply evaluate_reply band s
  = report get_str_reply evaluate_reply (band mod 4) s
  ∧ (0 ≤ band mod 4 < 4)%Z.
Proof using Type.
  split; [|apply Z.mod_pos_bound; lia].
  unfold report. destruct (land_low_bits band) as [-> ->]. reflexivity.
Qed.

Lemma lr_tree_name_store (s : lr_session) :
  default_named s →
  LinearFit._get_tree_name s
  = (Returned (gui_tree (lr_ident (lr_me s))),
     mkLrSession (mkLinearFit (lr_ident (lr_me s)) (gui_tree (lr_ident (lr_me s)))
                    (lr_output_tree_name (lr_me s)))
       (lr_calls s)).
Proof using Type.
  intros [[H|H] _]; unfold LinearFit._get_tree_name; py_unfold; rewrite H; simpl.
  - reflexivity.
  - destruct s as [[i t o] l]. simpl in *. subst t. reflexivity.
Qed.

Lemma lr_output_tree_name_store (s : lr_session) :
  default_named s →
  _get_output_tree_name s
  = (Returned (output_tree (lr_ident (lr_me s))),
     mkLrSession (mkLinearFit (lr_ident (lr_me s)) (lr_tree_name (lr_me s))
                    (output_tree (lr_ident (lr_me s))))
       (lr_calls s)).
Proof using Type.
  intros [_ [H|H]]; unfold _get_output_tree_name; py_unfold; rewrite H; simpl.
  - reflexivity.
  - destruct s as [[i t o] l]. simpl in *. subst o. reflexivity.
Qed.

Lemma init_default_named (i : Z) : default_named (snd (LinearFit.__init__ (blank i))).
Proof using Type. split; [right | left]; reflexivity. Qed.

(** X17. [LinearFit.result] runs the fit into the output tree, reads it and
    deletes it; it never deletes the tree [__init__] set up, so it can be
    called again and issues the same three calls. *)
Theorem lr_result_calls (s : lr_session) :
  default_named s →
  let i := lr_ident (lr_me s) in
  let s' := snd (result tree_dict tree_reply s) in
  lr_calls s'
  = lr_calls s
    ++ [LT_execute ("xop execute:=run iotrgui:=" +:+ gui_tree i
                    +:+ " otrresult:=" +:+ output_tree i);
        lt_tree_to_dict (output_tree i);
        LT_execute ("del -vt " +:+ output_tree i)]
  ∧ filter (deletes (gui_tree i)) (lr_calls s') = filter (deletes (gui_tree i)) (lr_calls s)
  ∧ default_named s' ∧ lr_ident (lr_me s') = i.
Proof using Type.
  intros Hd i s'. subst s'.
  assert (snd (result tree_dict tree_reply s)
          = mkLrSession (mkLinearFit i (gui_tree i) (output_tree i))
              (lr_calls s
               ++ [LT_execute ("xop execute:=run iotrgui:=" +:+ gui_tree i
                               +:+ " otrresult:=" +:+ output_tree i);
                   lt_tree_to_dict (output_tree i);
                   LT_execute ("del -vt " +:+ output_tree i)])) as ->.
  { unfold result, lr_host, utils_lt_tree_to_dict, po_LT_execute, record.
    unfold mbind at 1, py_bind, bind. rewrite (lr_output_tree_name_store s Hd).
    unfold mbind at 1, py_bind, bind. rewrite lr_tree_name_store.
    - py_unfold. simpl. rewrite <- !app_assoc. reflexivity.
    - destruct Hd as [Ht _]. split; [exact Ht | right; reflexivity]. }
  simpl. split; [reflexivity|]. split; [|split; [|reflexivity]].
  - rewrite filter_app. rewrite <- (app_nil_r (filter _ (lr_calls s))) at 2.
    f_equal.
  - split; right; reflexivity.
Qed.

End LinearFitFacts.

Lemma lr_result_calls_witness :
  let s := snd (LinearFit.__init__ (LinearFit.blank 7)) in
  LinearFit.lr_calls (snd (LinearFit.result unit (fun _ _ => tt) s))
  = LinearFit.lr_calls s
    ++ [NLFit.LT_execute "xop execute:=run iotrgui:=_PY_LR_TREE_7 otrresult:=_PY_LR_OUTPUT_7";
        NLFit.lt_tree_to_dict "_PY_LR_OUTPUT_7";
        NLFit.LT_execute "del -vt _PY_LR_OUTPUT_7"].
Proof.
  apply (lr_result_calls unit (fun _ _ => tt) (snd (LinearFit.__init__ (LinearFit.blank 7)))).
  split; [right | left]; reflexivity.
Defined.

(** ** Finalising a fit object with OriginExt *)

Section FinalizerFacts.
Import Config AppRuns.

Variable OriginExt_has : string -> bool.
Variable host_reachable : bool.

(** X18. The [__del__] of a fit object never attaches to the host: with no
    application object held it does nothing at all, and with one held it
    sends its [del -vt] command to that object and creates none. *)
Theorem fit_del_never_attaches (tr : string) (s : app_state) :
  let s' := snd (Finalizer.__del__ OriginExt_has host_reachable tr s) in
  filter is_new (events s') = filter is_new (events s)
  ∧ self s' = self s
  ∧ (_app (self s) = None → s' = s)
  ∧ (is_Some (_app (self s)) → events s' = events s ++ [Ev_LT_execute ("del -vt " +:+ tr)]).
Proof.
  intros s'. subst s'. unfold Finalizer.__del__, Finalizer.po_LT_execute, __bool__, emit.
  py_unfold. destruct s as [[[k|] f] ev]; simpl.
  - destruct (OriginExt_has "LT_execute") eqn:E.
    + rewrite getattr_module by exact E. simpl.
      rewrite filter_app. simpl. rewrite app_nil_r.
      repeat split. intros H. discriminate.
    + rewrite getattr_forwarded by exact E. simpl.
      rewrite filter_app. simpl. rewrite app_nil_r.
      repeat split. intros H. discriminate.
  - repeat split. intros [x H]. discriminate.
Qed.

End FinalizerFacts.

Lemma fit_del_never_attaches_witness :
  snd (Finalizer.__del__ Config.defines_DF true "_PY_NLFIT_TREE_1" Config.fresh_state)
  = Config.fresh_state.
Proof.
  apply (fit_del_never_attaches Config.defines_DF true "_PY_NLFIT_TREE_1"
           Config.fresh_state).
  reflexivity.
Defined.

(** ** Sections of a function description *)

Section Sections.
Import NLFit.

Lemma find_child (tag : string) (e c : element) :
  find tag e = Some c → In c (children_of e) ∧ tag_of c = tag.
Proof.
  unfold find. intros H. apply find_some in H as [Hin Ht].
  split; [exact Hin|]. apply bool_decide_eq_true in Ht. exact Ht.
Qed.

Lemma find_absent (tag : string) (e : element) :
  (∀ c, In c (children_of e) → tag_of c ≠ tag) → find tag e = None.
Proof.
  intros H. unfold find. destruct (List.find _ _) as [c|] eqn:E; [|reflexivity].
  apply find_some in E as [Hin Ht]. apply bool_decide_eq_true in Ht.
  exfalso. exact (H c Hin Ht).
Qed.

Lemma find_first (tag : string) (e c : element) (pre post : list element) :
  children_of e = pre ++ c :: post →
  (∀ x, In x pre → tag_of x ≠ tag) → tag_of c = tag → find tag e = Some c.
Proof.
  unfold find. intros -> Hpre Hc.
  induction pre as [|x pre IH]; simpl.
  - rewrite bool_decide_eq_true_2 by exact Hc. reflexivity.
  - rewrite bool_decide_eq_false_2 by (apply Hpre; left; reflexivity).
    apply IH. intros y Hy. apply Hpre. right. exact Hy.
Qed.

(** X19. For a plain section name, the section [_func_section] returns is
    a child of the description whose tag is that name, and then it has
    children of its own, or that name in upper case. The first child
    tagged with the name is returned when it has children; when no child
    carries the name or its upper case there is no section. A description
    with no child tagged [GeneralInformation] or [GENERALINFORMATION]
    makes [_general_info] raise [AttributeError]. *)
Theorem func_section_found (trfdf : element) (section key : string) :
  plain_tag section = true →
  (∀ e, _func_section trfdf section = Some e →
        In e (children_of trfdf)
        ∧ ((tag_of e = section ∧ truth e = true) ∨ tag_of e = upper section))
  ∧ (∀ pre c post, children_of trfdf = pre ++ c :: post →
       (∀ x, In x pre → tag_of x ≠ section) → tag_of c = section → truth c = true →
       _func_section trfdf section = Some c)
  ∧ ((∀ c, In c (children_of trfdf) → tag_of c ≠ section ∧ tag_of c ≠ upper section) →
     _func_section trfdf section = None)
  ∧ ((∀ c, In c (children_of trfdf) →
           tag_of c ≠ "GeneralInformation" ∧ tag_of c ≠ "GENERALINFORMATION") →
     ∀ l : list lt_call, _general_info trfdf key l = (Raised AttributeError, l)).
Proof.
  intros _. split; [|split; [|split]].
  - intros e. unfold _func_section.
    destruct (find section trfdf) as [sec|] eqn:E.
    + destruct (truth sec) eqn:Et.
      * intros [= <-]. apply find_child in E as [Hin Ht]. tauto.
      * intros H. apply find_child in H as [Hin Ht]. tauto.
    + intros H. apply find_child in H as [Hin Ht]. tauto.
  - intros pre c post Hch Hpre Hc Ht. unfold _func_section.
    rewrite (find_first section trfdf c pre post Hch Hpre Hc), Ht. reflexivity.
  - intros H. unfold _func_section.
    rewrite (find_absent section) by (intros c Hc; apply H, Hc).
    apply find_absent. intros c Hc. apply H, Hc.
  - intros H l. unfold _general_info, _func_section.
    rewrite (find_absent "GeneralInformation") by (intros c Hc; apply H, Hc).
    change (upper "GeneralInformation") with "GENERALINFORMATION".
    rewrite (find_absent "GENERALINFORMATION") by (intros c Hc; apply H, Hc).
    reflexivity.
Qed.

End Sections.

Lemma func_section_found_witness :
  NLFit.plain_tag "GeneralInformation" = true
  ∧ NLFit._func_section Sample.explicit_fdf "GeneralInformation"
    = Some (Sample.general_information "Explicit")
  ∧ NLFit._general_info (NLFit.Element "FDF" None []) "FunctionModel"
      ([] : list NLFit.lt_call)
    = (Raised AttributeError, []).
Proof.
  split; [reflexivity|]. split.
  - destruct (func_section_found Sample.explicit_fdf "GeneralInformation"
                "FunctionModel" eq_refl) as (_ & Hfirst & _).
    apply (Hfirst [] (Sample.general_information "Explicit") []); try reflexivity.
    intros x [].
  - destruct (func_section_found (NLFit.Element "FDF" None []) "GeneralInformation"
                "FunctionModel" eq_refl) as (_ & _ & _ & Hnone).
    apply Hnone. intros c [].
Defined.
